(** * BookRoom: allocation resolver and booking committer

    A shallow embedding of [src/pages/student/BookRoom.tsx].  The component
    holds five pieces of React state, talks to an authentication provider and
    to a relational store through awaited requests, and wraps each of its two
    operations, [fetchCurrentAllocationAndRooms] and [handleBookRoom], in a
    [try]/[catch]/[finally] block.

    The embedding threads an explicit [World] (view state, store contents,
    request counter, trace of what was requested and logged) through a small
    state-and-exception monad.  The collaborators are external to the
    component: what they answer at each request is taken from an [Env]. *)

From Stdlib Require Import List String Ascii ZArith Bool Lia Permutation.
Import ListNotations.

Local Open Scope string_scope.
Local Open Scope list_scope.
Local Open Scope Z_scope.

(** ** Data model *)

(** The store orders allocations by their [start_date] column; an instant is
    modelled by an integer (for instance milliseconds since the epoch). *)
Definition timestamp := Z.

Module Room.
Record t := mk
  { id : string;
    room_number : string;
    floor : Z;
    capacity : Z;
    price_per_month : Z }.
End Room.

Module RoomAllocation.
Record t := mk
  { id : string;
    room : Room.t;
    start_date : timestamp;
    end_date : option timestamp }.
End RoomAllocation.

Module RoomAllocationResponse.
Record t := mk
  { id : string;
    start_date : timestamp;
    end_date : option timestamp;
    rooms : Room.t }.
End RoomAllocationResponse.

Module User.
Record t := mk { id : string }.
End User.

(** A row of the [room_allocations] table, and the object [handleBookRoom]
    passes to [insert] (the store supplies the row's [id]). *)
Module Row.
Record t := mk
  { id : string;
    student_id : string;
    room_id : string;
    start_date : timestamp;
    end_date : option timestamp }.
End Row.

Module Payload.
Record t := mk
  { student_id : string;
    room_id : string;
    start_date : timestamp;
    end_date : option timestamp }.
End Payload.

Record Store := mkStore
  { rooms : list Room.t;
    room_allocations : list Row.t }.

(** The [{ data, error }] pair every store request resolves to. *)
Record Response (A : Type) := mkResponse
  { data : option A;
    error : option string }.
Arguments mkResponse {A} _ _.
Arguments data {A} _.
Arguments error {A} _.

(** What a [catch] clause can receive: [new Error(msg)] thrown by the
    component itself, or the error object of a store response. *)
Inductive exn :=
| JsError (message : string)
| PostgrestError (message : string).

(** ** The store's query operators *)

Module Query.

(** [rooms!inner (...)]: the allocation row together with the room its
    [room_id] names; rows without such a room are dropped. *)
Definition embed_rooms_inner (st : Store) (a : Row.t) : list (Row.t * Room.t) :=
  match find (fun r => String.eqb (Room.id r) (Row.room_id a)) (rooms st) with
  | Some r => [(a, r)]
  | None => []
  end.

Definition from_room_allocations (st : Store) : list (Row.t * Room.t) :=
  flat_map (embed_rooms_inner st) (room_allocations st).

(** [.eq('student_id', uid)] *)
Definition eq_student_id (uid : string) (rows : list (Row.t * Room.t)) :=
  filter (fun ar => String.eqb (Row.student_id (fst ar)) uid) rows.

(** [.order('start_date', { ascending: false })], as an insertion sort.
    The request names no second key, so the store is free in how it orders
    rows with equal start; this sort puts them in reverse table order, and
    no statement below depends on that. *)
Fixpoint insert_desc (x : Row.t * Room.t) (rows : list (Row.t * Room.t)) :=
  match rows with
  | [] => [x]
  | y :: rest =>
      if Row.start_date (fst y) <? Row.start_date (fst x)
      then x :: y :: rest
      else y :: insert_desc x rest
  end.

Definition order_start_date_desc (rows : list (Row.t * Room.t)) :=
  fold_right insert_desc [] rows.

(** [.limit(n)] *)
Definition limit {A : Type} (n : nat) (rows : list A) : list A := firstn n rows.

(** [.maybeSingle()]: no row is [null], one row is that row, more is an
    error. *)
Definition maybeSingle {A : Type} (rows : list A) : Response A :=
  match rows with
  | [] => mkResponse None None
  | [x] => mkResponse (Some x) None
  | _ :: _ :: _ =>
      mkResponse None (Some "JSON object requested, multiple (or no) rows returned")
  end.

(** The columns named in [.select(...)]. *)
Definition project (ar : Row.t * Room.t) : RoomAllocationResponse.t :=
  RoomAllocationResponse.mk
    (Row.id (fst ar)) (Row.start_date (fst ar)) (Row.end_date (fst ar)) (snd ar).

Definition map_response {A B : Type} (f : A -> B) (r : Response A) : Response B :=
  mkResponse (option_map f (data r)) (error r).

(** The first query of [fetchCurrentAllocationAndRooms]. *)
Definition latest_allocation (st : Store) (uid : string)
  : Response RoomAllocationResponse.t :=
  map_response project
    (maybeSingle
       (limit 1 (order_start_date_desc (eq_student_id uid (from_room_allocations st))))).

(** [.is('end_date', null)] *)
Definition is_end_date_null (a : Row.t) : bool :=
  match Row.end_date a with None => true | Some _ => false end.

(** What can stand in the value position of [.not(column, operator, value)]:
    text, or an object such as a query builder.  The client writes the
    filter as the template literal [`not.${operator}.${value}`], and an
    object without a [toString] of its own comes out of a template literal
    as ["[object Object]"]. *)
Inductive FilterValue :=
| Text (s : string)
| BuilderObject.

Definition template (v : FilterValue) : string :=
  match v with
  | Text s => s
  | BuilderObject => "[object Object]"
  end.

(** The operand of [in] as the store reads it: a parenthesised list of
    items separated by commas.  Items are taken as they stand between the
    commas; quoted items are not modelled. *)
Fixpoint items_until_close (s : string) (item : string) : option (list string) :=
  match s with
  | EmptyString => None
  | String c rest =>
      if Ascii.eqb c ")"
      then match rest with EmptyString => Some [item] | String _ _ => None end
      else if Ascii.eqb c ","
           then option_map (cons item) (items_until_close rest "")
           else items_until_close rest (String.append item (String c ""))
  end.

Definition in_operand (s : string) : option (list string) :=
  match s with
  | String c rest =>
      if Ascii.eqb c "("
      then match rest with
           | String d EmptyString => if Ascii.eqb d ")" then Some [] else None
           | _ => items_until_close rest ""
           end
      else None
  | EmptyString => None
  end.

Definition not_id_in (ids : list string) (r : Room.t) : bool :=
  negb (existsb (String.eqb (Room.id r)) ids).

(** [from('rooms').select('*')] with the filter [id=not.in.<operand>]: the
    rooms whose [id] is not in the list, or an error when the operand is
    not a list. *)
Definition rooms_not_id_in (st : Store) (operand : string) : Response (list Room.t) :=
  match in_operand operand with
  | Some ids => mkResponse (Some (filter (not_id_in ids) (rooms st))) None
  | None =>
      mkResponse None
        (Some (String.append "failed to parse filter (not.in."
                 (String.append operand ")")))
  end.

(** The second query of [fetchCurrentAllocationAndRooms].  The value handed
    to [.not('id', 'in', ...)] is the builder
    [supabase.from('room_allocations').select('room_id').is('end_date', null)]
    itself: it is never awaited, so no request is made for it, and the
    rooms request carries its template-literal text. *)
Definition available_rooms (st : Store) : Response (list Room.t) :=
  rooms_not_id_in st (template BuilderObject).

(** [from('room_allocations').insert(p)], the store choosing the [id]. *)
Definition insert (st : Store) (new_id : string) (p : Payload.t) : Store :=
  mkStore (rooms st)
    (room_allocations st ++
       [Row.mk new_id (Payload.student_id p) (Payload.room_id p)
          (Payload.start_date p) (Payload.end_date p)]).

End Query.

Arguments Query.available_rooms : simpl never.

(** ** The collaborators *)

(** How a request can go wrong on its way: not at all, with a [null] payload
    and no error, or with an error. *)
Inductive Fault :=
| NoFault
| NullData
| Fails (message : string).

Definition respond {A : Type} (f : Fault) (r : Response A) : Response A :=
  match f with
  | NoFault => r
  | NullData => mkResponse None None
  | Fails m => mkResponse None (Some m)
  end.

(** The answers of the outside world, indexed by the number of requests the
    component has awaited so far: who is signed in, whether the request
    fails, what the clock reads, which identifier the store gives a new row. *)
Record Env := mkEnv
  { getUser_at : nat -> option User.t;
    fault_at : nat -> Fault;
    now_at : nat -> timestamp;
    uuid_at : nat -> string }.

(** ** Component state *)

Record View := mkView
  { loading : bool;
    currentAllocation : option RoomAllocation.t;
    availableRooms : list Room.t;
    error_message : option string;
    bookingInProgress : bool }.

(** The [useState] initial values. *)
Definition initial_view : View := mkView true None [] None false.

Inductive Event :=
| EvGetUser (u : option User.t)
| EvSelectAllocation (student : string) (r : Response RoomAllocationResponse.t)
| EvSelectRooms (r : Response (list Room.t))
| EvInsert (p : Payload.t) (err : option string)
| EvConsoleError (label : string) (e : exn).

Record World := mkWorld
  { view : View;
    db : Store;
    tick : nat;
    trace : list Event }.

(** ** A state and exception monad *)

Inductive Outcome (A : Type) :=
| Return (a : A)
| Throw (e : exn).
Arguments Return {A} _.
Arguments Throw {A} _.

Definition M (A : Type) : Type := World -> Outcome A * World.

Definition ret {A : Type} (a : A) : M A := fun w => (Return a, w).

Definition throw {A : Type} (e : exn) : M A := fun w => (Throw e, w).

Definition bind {A B : Type} (m : M A) (k : A -> M B) : M B :=
  fun w =>
    match m w with
    | (Return a, w1) => k a w1
    | (Throw e, w1) => (Throw e, w1)
    end.

Declare Scope m_scope.
Delimit Scope m_scope with M.
Notation "x <- m ;; k" := (bind m (fun x => k))
  (at level 61, m at next level, right associativity) : m_scope.
Notation "m ;; k" := (bind m (fun _ => k))
  (at level 61, right associativity) : m_scope.

(** [try { body } catch (err) { handler } finally { final }]: the handler
    runs on a throw of the body, the final block runs in every case, and a
    final block that completes normally leaves the earlier completion. *)
Definition try_catch_finally (body : M unit) (handler : exn -> M unit)
    (final : M unit) : M unit :=
  fun w =>
    let '(r, w1) :=
      match body w with
      | (Return a, w1) => (Return a, w1)
      | (Throw e, w1) => handler e w1
      end in
    match final w1 with
    | (Return _, w2) => (r, w2)
    | (Throw e, w2) => (Throw e, w2)
    end.

Definition modify_view (f : View -> View) : M unit :=
  fun w => (Return tt, mkWorld (f (view w)) (db w) (tick w) (trace w)).

Definition emit (e : Event) (w : World) : World :=
  mkWorld (view w) (db w) (tick w) (trace w ++ [e]).

Definition await (w : World) : World :=
  mkWorld (view w) (db w) (S (tick w)) (trace w).

Definition setLoading (b : bool) : M unit :=
  modify_view (fun v =>
    mkView b (currentAllocation v) (availableRooms v) (error_message v)
      (bookingInProgress v)).

Definition setCurrentAllocation (a : option RoomAllocation.t) : M unit :=
  modify_view (fun v =>
    mkView (loading v) a (availableRooms v) (error_message v) (bookingInProgress v)).

Definition setAvailableRooms (l : list Room.t) : M unit :=
  modify_view (fun v =>
    mkView (loading v) (currentAllocation v) l (error_message v) (bookingInProgress v)).

Definition setError (m : option string) : M unit :=
  modify_view (fun v =>
    mkView (loading v) (currentAllocation v) (availableRooms v) m (bookingInProgress v)).

Definition setBookingInProgress (b : bool) : M unit :=
  modify_view (fun v =>
    mkView (loading v) (currentAllocation v) (availableRooms v) (error_message v) b).

Definition console_error (label : string) (e : exn) : M unit :=
  fun w => (Return tt, emit (EvConsoleError label e) w).

(** [rows as Room[] || []] *)
Definition or_empty {A : Type} (d : option (list A)) : list A :=
  match d with Some l => l | None => [] end.

Section Component.

Variable env : Env.

(** [await supabase.auth.getUser()] *)
Definition auth_getUser : M (option User.t) :=
  fun w =>
    let u := getUser_at env (tick w) in
    (Return u, await (emit (EvGetUser u) w)).

(** [new Date().toISOString()] *)
Definition new_Date : M timestamp :=
  fun w => (Return (now_at env (tick w)), w).

Definition select_latest_allocation (uid : string)
  : M (Response RoomAllocationResponse.t) :=
  fun w =>
    let r := respond (fault_at env (tick w)) (Query.latest_allocation (db w) uid) in
    (Return r, await (emit (EvSelectAllocation uid r) w)).

Definition select_available_rooms : M (Response (list Room.t)) :=
  fun w =>
    let r := respond (fault_at env (tick w))
               (Query.available_rooms (db w)) in
    (Return r, await (emit (EvSelectRooms r) w)).

Definition insert_room_allocation (p : Payload.t) : M (option string) :=
  fun w =>
    match fault_at env (tick w) with
    | Fails m => (Return (Some m), await (emit (EvInsert p (Some m)) w))
    | _ =>
        let w1 := await (emit (EvInsert p None) w) in
        (Return None,
         mkWorld (view w1) (Query.insert (db w) (uuid_at env (tick w)) p)
           (tick w1) (trace w1))
    end.

Local Open Scope m_scope.

Definition fetch_body : M unit :=
  setLoading true ;;
  user <- auth_getUser ;;
  match user with
  | None => throw (JsError "Not authenticated")
  | Some user =>
      allocation <- select_latest_allocation (User.id user) ;;
      match error allocation with
      | Some allocationError =>
          console_error "Error fetching allocation:" (PostgrestError allocationError) ;;
          throw (PostgrestError allocationError)
      | None =>
          match data allocation with
          | Some typedData =>
              setCurrentAllocation
                (Some (RoomAllocation.mk
                         (RoomAllocationResponse.id typedData)
                         (RoomAllocationResponse.rooms typedData)
                         (RoomAllocationResponse.start_date typedData)
                         (RoomAllocationResponse.end_date typedData)))
          | None =>
              roomsResult <- select_available_rooms ;;
              match error roomsResult with
              | Some roomsError =>
                  console_error "Error fetching rooms:" (PostgrestError roomsError) ;;
                  throw (PostgrestError roomsError)
              | None => setAvailableRooms (or_empty (data roomsResult))
              end
          end
      end
  end.

Definition fetch_catch (err : exn) : M unit :=
  console_error "Error:" err ;;
  setError (Some "Failed to fetch room details").

Definition fetchCurrentAllocationAndRooms : M unit :=
  try_catch_finally fetch_body fetch_catch (setLoading false).

Definition book_body (roomId : string) : M unit :=
  setBookingInProgress true ;;
  user <- auth_getUser ;;
  match user with
  | None => throw (JsError "Not authenticated")
  | Some user =>
      now <- new_Date ;;
      bookingError <-
        insert_room_allocation (Payload.mk (User.id user) roomId now None) ;;
      match bookingError with
      | Some e => throw (PostgrestError e)
      | None => fetchCurrentAllocationAndRooms
      end
  end.

Definition book_catch (err : exn) : M unit :=
  console_error "Error booking room:" err ;;
  setError (Some "Failed to book room. Please try again.").

Definition handleBookRoom (roomId : string) : M unit :=
  try_catch_finally (book_body roomId) book_catch (setBookingInProgress false).

End Component.


(** ** Reading a run *)

Definition outcome_of {A : Type} (m : M A) (w : World) : Outcome A := fst (m w).
Definition world_after {A : Type} (m : M A) (w : World) : World := snd (m w).

(** The events a run added to the trace it started from. *)
Definition new_events (before after : World) : list Event :=
  skipn (List.length (trace before)) (trace after).

Definition is_some {A : Type} (o : option A) : bool :=
  match o with Some _ => true | None => false end.

Definition failed (f : Fault) : bool :=
  match f with Fails _ => true | _ => false end.

Definition is_store_request (ev : Event) : bool :=
  match ev with
  | EvSelectAllocation _ _ | EvSelectRooms _ | EvInsert _ _ => true
  | EvGetUser _ | EvConsoleError _ _ => false
  end.

Definition is_rooms_query (ev : Event) : bool :=
  match ev with EvSelectRooms _ => true | _ => false end.

Definition is_insert (ev : Event) : bool :=
  match ev with EvInsert _ _ => true | _ => false end.

Definition query_failed (ev : Event) : bool :=
  match ev with
  | EvSelectAllocation _ r => is_some (error r)
  | EvSelectRooms r => is_some (error r)
  | _ => false
  end.

(** ** Properties of stores *)

(** Every allocation names a room of the [rooms] table: the foreign key the
    embedded select [rooms!inner] follows. *)
Definition referential_integrity (st : Store) : bool :=
  forallb
    (fun a => existsb (fun r => String.eqb (Room.id r) (Row.room_id a)) (rooms st))
    (room_allocations st).

Definition has_allocation (st : Store) (uid : string) : bool :=
  existsb (fun a => String.eqb (Row.student_id a) uid) (room_allocations st).

Definition room_exists (st : Store) (roomId : string) : bool :=
  existsb (fun r => String.eqb (Room.id r) roomId) (rooms st).

(** Every allocation of [uid] already in the store starts before [now]. *)
Definition all_started_before (st : Store) (uid : string) (now : timestamp) : bool :=
  forallb
    (fun a => negb (String.eqb (Row.student_id a) uid) || (Row.start_date a <? now))
    (room_allocations st).

(** The rooms no open allocation refers to, in the words of the
    specification: a room is kept when no allocation with a null end
    timestamp carries its identifier. *)
Definition rooms_with_no_open_allocation (st : Store) : list Room.t :=
  filter
    (fun r =>
       forallb
         (fun a => negb (Query.is_end_date_null a
                         && String.eqb (Row.room_id a) (Room.id r)))
         (room_allocations st))
    (rooms st).

(** The first row of a list starts no earlier than any row of the list. *)
Definition head_latest (rows : list (Row.t * Room.t)) : Prop :=
  match rows with
  | [] => True
  | h :: _ => forall y, In y rows -> Row.start_date (fst y) <= Row.start_date (fst h)
  end.

(** The view a failed operation leaves: the message set, the flag of the
    operation cleared, the rest as it was. *)
Definition view_failed (v : View) (msg : string) : View :=
  mkView false (currentAllocation v) (availableRooms v) (Some msg) (bookingInProgress v).

(** The view a failed booking leaves. *)
Definition booking_failed (v : View) (msg : string) : View :=
  mkView (loading v) (currentAllocation v) (availableRooms v) (Some msg) false.

(** The record [handleBookRoom] sends for user [u], and the world right after
    the store accepted it: booking flag raised, row appended, two requests
    awaited. *)
Definition booking_payload (env : Env) (w : World) (u : User.t) (roomId : string)
  : Payload.t :=
  Payload.mk (User.id u) roomId (now_at env (S (tick w))) None.

Definition after_insert (env : Env) (w : World) (u : User.t) (roomId : string)
  : World :=
  mkWorld
    (mkView (loading (view w)) (currentAllocation (view w)) (availableRooms (view w))
       (error_message (view w)) true)
    (Query.insert (db w) (uuid_at env (S (tick w))) (booking_payload env w u roomId))
    (S (S (tick w)))
    (trace w ++ [EvGetUser (Some u); EvInsert (booking_payload env w u roomId) None]).

(** ** Concrete stores and sessions *)

Definition R1 : Room.t := Room.mk "R1" "101" 1 2 500.
Definition R2 : Room.t := Room.mk "R2" "201" 2 1 600.

Definition studentA : User.t := User.mk "studentA".
Definition studentB : User.t := User.mk "studentB".

(** A session in which [u] stays signed in, no request fails, the clock
    reads [now] and the store names new rows [new_id]. *)
Definition calm_session (u : User.t) (now : timestamp) (new_id : string) : Env :=
  mkEnv (fun _ => Some u) (fun _ => NoFault) (fun _ => now) (fun _ => new_id).

(** A session with nobody signed in. *)
Definition signed_out : Env :=
  mkEnv (fun _ => None) (fun _ => NoFault) (fun _ => 1000) (fun _ => "a1").

(** A session of [u] in which request number [n], counting from 0, fails
    with message [m]. *)
Definition failing_at (u : User.t) (n : nat) (m : string) : Env :=
  mkEnv (fun _ => Some u)
    (fun k => if Nat.eqb k n then Fails m else NoFault)
    (fun _ => 1000) (fun _ => "a1").

(** A session of [u] in which request number [n], counting from 0, comes
    back with a null payload. *)
Definition null_at (u : User.t) (n : nat) : Env :=
  mkEnv (fun _ => Some u)
    (fun k => if Nat.eqb k n then NullData else NoFault)
    (fun _ => 1000) (fun _ => "a1").

Definition mount (st : Store) : World := mkWorld initial_view st 0 [].

Definition two_rooms : Store := mkStore [R1; R2] [].

(** [studentA] holds an ended allocation on [R2] dated after the clock of
    the sessions above. *)
Definition later_allocation : Store :=
  mkStore [R1; R2] [Row.mk "a0" "studentA" "R2" 2000 (Some 3000)].

(** [studentA] has an ended and an open allocation on [R2]; [R1] is held
    open by [studentB]. *)
Definition mixed_store : Store :=
  mkStore [R1; R2]
    [Row.mk "a0" "studentA" "R2" 100 (Some 200);
     Row.mk "b0" "studentB" "R1" 300 None;
     Row.mk "a2" "studentA" "R2" 400 None].

(** ** What the component renders *)

(** One card of the room grid: the room's attributes, the argument its
    button passes to [handleBookRoom], and the button's [disabled] attribute
    and label. *)
Record Card := mkCard
  { key : string;
    card_room_number : string;
    card_floor : Z;
    card_capacity : Z;
    card_price_per_month : Z;
    on_click : string;
    disabled : bool;
    label : string }.

(** The four [return]s of the component body, the last with its two
    alternatives. *)
Inductive Screen :=
| Spinner
| ErrorBox (message : string)
| AllocatedView (room_number : string)
| NoRoomsMessage
| RoomGrid (cards : list Card).

(** [if (error)] on a [string | null]: [null] and the empty string are
    falsy. *)
Definition truthy (s : option string) : bool :=
  match s with
  | Some (String _ _) => true
  | Some EmptyString | None => false
  end.

Definition room_card (bookingInProgress : bool) (room : Room.t) : Card :=
  mkCard (Room.id room) (Room.room_number room) (Room.floor room)
    (Room.capacity room) (Room.price_per_month room) (Room.id room)
    bookingInProgress
    (if bookingInProgress then "Booking..." else "Book Now").

Definition render (v : View) : Screen :=
  if loading v then Spinner
  else
    match (if truthy (error_message v) then error_message v else None) with
    | Some message => ErrorBox message
    | None =>
        match currentAllocation v with
        | Some allocation =>
            AllocatedView (Room.room_number (RoomAllocation.room allocation))
        | None =>
            if Nat.eqb (List.length (availableRooms v)) 0
            then NoRoomsMessage
            else RoomGrid (map (room_card (bookingInProgress v)) (availableRooms v))
        end
    end.

(** The room identifiers the screen lets the user book. *)
Definition bookable (s : Screen) : list string :=
  match s with
  | RoomGrid cards => map on_click cards
  | _ => []
  end.

(** ** Counting *)

Definition open_allocations_on (st : Store) (roomId : string) : list Row.t :=
  filter
    (fun a => Query.is_end_date_null a && String.eqb (Row.room_id a) roomId)
    (room_allocations st).

Definition count_events (p : Event -> bool) (evs : list Event) : nat :=
  List.length (filter p evs).

(** Rows in descending order of start. *)
Fixpoint sorted_desc (rows : list (Row.t * Room.t)) : Prop :=
  match rows with
  | [] => True
  | x :: rest =>
      (forall y, In y rest -> Row.start_date (fst y) <= Row.start_date (fst x))
      /\ sorted_desc rest
  end.

(** ** Proof steps *)

Ltac run_fetch :=
  unfold fetchCurrentAllocationAndRooms, try_catch_finally, fetch_body, fetch_catch,
    bind, auth_getUser, select_latest_allocation, select_available_rooms,
    console_error, throw, setLoading, setError, setCurrentAllocation,
    setAvailableRooms, modify_view, emit, await; cbn.

Ltac flatten_trace := cbn; repeat rewrite <- app_assoc; cbn.

Ltac run_fetch_body :=
  unfold outcome_of, fetch_body, bind, auth_getUser, select_latest_allocation,
    select_available_rooms, console_error, throw, setLoading, setCurrentAllocation,
    setAvailableRooms, modify_view, emit, await; cbn.

Ltac run_book :=
  unfold handleBookRoom, try_catch_finally, book_body, book_catch, bind,
    auth_getUser, new_Date, insert_room_allocation, console_error, throw,
    setBookingInProgress, setError, modify_view, emit, await; cbn.

(** ** Facts about the query operators *)

Section QueryFacts.

Variable st : Store.

Lemma find_room_some (a : Row.t) (r : Room.t) :
  find (fun r => String.eqb (Room.id r) (Row.room_id a)) (rooms st) = Some r ->
  In r (rooms st) /\ Room.id r = Row.room_id a.
Proof.
  intros H. apply find_some in H. destruct H as [Hin Heq].
  split; [assumption | now apply String.eqb_eq].
Qed.

Lemma find_room_exists (a : Row.t) :
  existsb (fun r => String.eqb (Room.id r) (Row.room_id a)) (rooms st) = true ->
  exists r, find (fun r => String.eqb (Room.id r) (Row.room_id a)) (rooms st) = Some r.
Proof.
  intros H.
  destruct (find _ (rooms st)) as [r|] eqn:E; [now exists r|].
  apply existsb_exists in H. destruct H as [r [Hin Heq]].
  pose proof (find_none _ _ E r Hin) as Hf. simpl in Hf. congruence.
Qed.

Lemma in_from_room_allocations (a : Row.t) (r : Room.t) :
  In (a, r) (Query.from_room_allocations st) <->
  In a (room_allocations st) /\
  find (fun r => String.eqb (Room.id r) (Row.room_id a)) (rooms st) = Some r.
Proof.
  unfold Query.from_room_allocations, Query.embed_rooms_inner.
  rewrite in_flat_map. split.
  - intros [b [Hb Hin]].
    destruct (find _ (rooms st)) as [r'|] eqn:E; simpl in Hin; [|contradiction].
    destruct Hin as [Hin|[]]. inversion Hin; subst. now split.
  - intros [Ha Hf]. exists a. split; [assumption|]. rewrite Hf. now left.
Qed.

Lemma in_eq_student_id (uid : string) (a : Row.t) (r : Room.t) :
  In (a, r) (Query.eq_student_id uid (Query.from_room_allocations st)) <->
  In a (room_allocations st) /\ Row.student_id a = uid /\
  find (fun r => String.eqb (Room.id r) (Row.room_id a)) (rooms st) = Some r.
Proof.
  unfold Query.eq_student_id. rewrite filter_In, in_from_room_allocations.
  simpl. rewrite String.eqb_eq. tauto.
Qed.

End QueryFacts.

Lemma in_insert_desc x z rows :
  In z (Query.insert_desc x rows) <-> z = x \/ In z rows.
Proof.
  induction rows as [|y rest IH]; simpl.
  - intuition congruence.
  - destruct (Row.start_date (fst y) <? Row.start_date (fst x)); simpl.
    + intuition congruence.
    + rewrite IH. intuition congruence.
Qed.

Lemma in_order_start_date_desc z rows :
  In z (Query.order_start_date_desc rows) <-> In z rows.
Proof.
  induction rows as [|x rest IH]; simpl; [tauto|].
  rewrite in_insert_desc, IH. intuition congruence.
Qed.

Lemma head_latest_insert_desc x rows :
  head_latest rows -> head_latest (Query.insert_desc x rows).
Proof.
  destruct rows as [|y rest]; simpl.
  - intros _ z [<-|[]]. lia.
  - intros Hy.
    destruct (Row.start_date (fst y) <? Row.start_date (fst x)) eqn:E.
    + apply Z.ltb_lt in E. intros z [<-|Hz]; [lia|].
      specialize (Hy z Hz). lia.
    + apply Z.ltb_ge in E. intros z [<-|Hz]; [lia|].
      apply in_insert_desc in Hz. destruct Hz as [->|Hz]; [assumption|].
      apply Hy. now right.
Qed.

Lemma head_latest_order rows : head_latest (Query.order_start_date_desc rows).
Proof.
  induction rows as [|x rest IH]; simpl; [exact I|].
  now apply head_latest_insert_desc.
Qed.

(** What the first query answers: nothing when the student has no joined
    allocation row, else a joined row of the student that starts no earlier
    than any other; never an error of its own. *)
Lemma latest_allocation_cases (st : Store) (uid : string) :
  (Query.latest_allocation st uid = mkResponse None None /\
   Query.eq_student_id uid (Query.from_room_allocations st) = [])
  \/
  (exists a r,
      In (a, r) (Query.eq_student_id uid (Query.from_room_allocations st)) /\
      (forall b r', In (b, r') (Query.eq_student_id uid (Query.from_room_allocations st)) ->
                    Row.start_date b <= Row.start_date a) /\
      Query.latest_allocation st uid = mkResponse (Some (Query.project (a, r))) None).
Proof.
  unfold Query.latest_allocation.
  set (rows := Query.eq_student_id uid (Query.from_room_allocations st)).
  pose proof (head_latest_order rows) as Hmax.
  pose proof (fun z => in_order_start_date_desc z rows) as Hin.
  destruct (Query.order_start_date_desc rows) as [|[a r] rest] eqn:E.
  - left. split; [reflexivity|].
    destruct rows as [|z zs]; [reflexivity|].
    exfalso. apply (Hin z). now left.
  - right. exists a, r. split; [|split].
    + apply Hin. now left.
    + intros b r' Hb. apply Hin in Hb. exact (Hmax (b, r') Hb).
    + destruct rest; reflexivity.
Qed.

Lemma latest_allocation_no_error (st : Store) (uid : string) :
  error (Query.latest_allocation st uid) = None.
Proof.
  destruct (latest_allocation_cases st uid) as [[-> _]|[a [r [_ [_ ->]]]]]; reflexivity.
Qed.

Lemma latest_allocation_none (st : Store) (uid : string) :
  has_allocation st uid = false ->
  Query.latest_allocation st uid = mkResponse None None.
Proof.
  intros Hno.
  destruct (latest_allocation_cases st uid) as [[H _]|[a [r [Hin _]]]]; [assumption|].
  apply in_eq_student_id in Hin. destruct Hin as [Hin [Hs _]].
  assert (has_allocation st uid = true) as Hyes.
  { apply existsb_exists. exists a. split; [assumption|]. now apply String.eqb_eq. }
  congruence.
Qed.

Lemma latest_allocation_some (st : Store) (uid : string) :
  referential_integrity st = true ->
  has_allocation st uid = true ->
  exists a r,
    In a (room_allocations st) /\ Row.student_id a = uid /\
    (forall b, In b (room_allocations st) -> Row.student_id b = uid ->
               Row.start_date b <= Row.start_date a) /\
    In r (rooms st) /\ Room.id r = Row.room_id a /\
    Query.latest_allocation st uid = mkResponse (Some (Query.project (a, r))) None.
Proof.
  intros Hfk Hhas.
  assert (forall b, In b (room_allocations st) -> Row.student_id b = uid ->
            exists r', In (b, r') (Query.eq_student_id uid (Query.from_room_allocations st)))
    as Hjoined.
  { intros b Hb Hs.
    unfold referential_integrity in Hfk. rewrite forallb_forall in Hfk.
    destruct (find_room_exists st b (Hfk b Hb)) as [r' Hr'].
    exists r'. apply in_eq_student_id. now repeat split. }
  destruct (latest_allocation_cases st uid) as [[_ Hnil]|[a [r [Hin [Hmax Hq]]]]].
  - apply existsb_exists in Hhas. destruct Hhas as [b [Hb Hs]].
    apply String.eqb_eq in Hs.
    destruct (Hjoined b Hb Hs) as [r' Hr']. rewrite Hnil in Hr'. contradiction.
  - apply in_eq_student_id in Hin. destruct Hin as [Ha [Hs Hf]].
    apply find_room_some in Hf. destruct Hf as [Hr Hid].
    exists a, r. repeat split; try assumption.
    intros b Hb Hbs. destruct (Hjoined b Hb Hbs) as [r' Hr']. exact (Hmax b r' Hr').
Qed.

(** ** The runs of [fetchCurrentAllocationAndRooms], path by path *)

Section FetchPaths.

Variable env : Env.
Variable w : World.

Lemma fetch_unauthenticated :
  getUser_at env (tick w) = None ->
  fetchCurrentAllocationAndRooms env w =
  (Return tt,
   mkWorld (view_failed (view w) "Failed to fetch room details") (db w) (S (tick w))
     (trace w ++ [EvGetUser None;
                  EvConsoleError "Error:" (JsError "Not authenticated")])).
Proof.
  intros Hu. run_fetch. rewrite Hu. flatten_trace. reflexivity.
Qed.

Lemma fetch_allocation_query_fails (u : User.t) (m : string) :
  getUser_at env (tick w) = Some u ->
  fault_at env (S (tick w)) = Fails m ->
  fetchCurrentAllocationAndRooms env w =
  (Return tt,
   mkWorld (view_failed (view w) "Failed to fetch room details") (db w) (S (S (tick w)))
     (trace w ++ [EvGetUser (Some u);
                  EvSelectAllocation (User.id u) (mkResponse None (Some m));
                  EvConsoleError "Error fetching allocation:" (PostgrestError m);
                  EvConsoleError "Error:" (PostgrestError m)])).
Proof.
  intros Hu Hf. run_fetch. rewrite Hu. cbn. rewrite Hf.
  flatten_trace. reflexivity.
Qed.

Lemma fetch_allocation_found (u : User.t) (d : RoomAllocationResponse.t) :
  getUser_at env (tick w) = Some u ->
  respond (fault_at env (S (tick w))) (Query.latest_allocation (db w) (User.id u))
    = mkResponse (Some d) None ->
  fetchCurrentAllocationAndRooms env w =
  (Return tt,
   mkWorld
     (mkView false
        (Some (RoomAllocation.mk (RoomAllocationResponse.id d)
                 (RoomAllocationResponse.rooms d)
                 (RoomAllocationResponse.start_date d)
                 (RoomAllocationResponse.end_date d)))
        (availableRooms (view w)) (error_message (view w)) (bookingInProgress (view w)))
     (db w) (S (S (tick w)))
     (trace w ++ [EvGetUser (Some u);
                  EvSelectAllocation (User.id u) (mkResponse (Some d) None)])).
Proof.
  intros Hu Hr. run_fetch. rewrite Hu. cbn. rewrite Hr.
  flatten_trace. reflexivity.
Qed.

Lemma fetch_rooms_query_fails (u : User.t) (m : string) :
  getUser_at env (tick w) = Some u ->
  respond (fault_at env (S (tick w))) (Query.latest_allocation (db w) (User.id u))
    = mkResponse None None ->
  respond (fault_at env (S (S (tick w)))) (Query.available_rooms (db w))
    = mkResponse None (Some m) ->
  fetchCurrentAllocationAndRooms env w =
  (Return tt,
   mkWorld (view_failed (view w) "Failed to fetch room details") (db w) (S (S (S (tick w))))
     (trace w ++ [EvGetUser (Some u);
                  EvSelectAllocation (User.id u) (mkResponse None None);
                  EvSelectRooms (mkResponse None (Some m));
                  EvConsoleError "Error fetching rooms:" (PostgrestError m);
                  EvConsoleError "Error:" (PostgrestError m)])).
Proof.
  intros Hu Hr Hf. run_fetch. rewrite Hu. cbn. rewrite Hr. cbn.
  rewrite Hf. flatten_trace. reflexivity.
Qed.

Lemma fetch_rooms_listed (u : User.t) (rs : option (list Room.t)) :
  getUser_at env (tick w) = Some u ->
  respond (fault_at env (S (tick w))) (Query.latest_allocation (db w) (User.id u))
    = mkResponse None None ->
  respond (fault_at env (S (S (tick w)))) (Query.available_rooms (db w))
    = mkResponse rs None ->
  fetchCurrentAllocationAndRooms env w =
  (Return tt,
   mkWorld
     (mkView false (currentAllocation (view w)) (or_empty rs) (error_message (view w))
        (bookingInProgress (view w)))
     (db w) (S (S (S (tick w))))
     (trace w ++ [EvGetUser (Some u);
                  EvSelectAllocation (User.id u) (mkResponse None None);
                  EvSelectRooms (mkResponse rs None)])).
Proof.
  intros Hu Hr Hrs. run_fetch. rewrite Hu. cbn. rewrite Hr. cbn.
  rewrite Hrs. flatten_trace. reflexivity.
Qed.

End FetchPaths.

(** How the [try] block of [fetchCurrentAllocationAndRooms] completes on
    each path. *)

Section FetchBody.

Variable env : Env.
Variable w : World.

Lemma fetch_body_unauthenticated :
  getUser_at env (tick w) = None ->
  outcome_of (fetch_body env) w = Throw (JsError "Not authenticated").
Proof. intros Hu. run_fetch_body. now rewrite Hu. Qed.

Lemma fetch_body_allocation_query_fails (u : User.t) (m : string) :
  getUser_at env (tick w) = Some u ->
  fault_at env (S (tick w)) = Fails m ->
  outcome_of (fetch_body env) w = Throw (PostgrestError m).
Proof. intros Hu Hf. run_fetch_body. rewrite Hu. cbn. now rewrite Hf. Qed.

Lemma fetch_body_allocation_found (u : User.t) (d : RoomAllocationResponse.t) :
  getUser_at env (tick w) = Some u ->
  respond (fault_at env (S (tick w))) (Query.latest_allocation (db w) (User.id u))
    = mkResponse (Some d) None ->
  outcome_of (fetch_body env) w = Return tt.
Proof. intros Hu Hr. run_fetch_body. rewrite Hu. cbn. now rewrite Hr. Qed.

Lemma fetch_body_rooms_query_fails (u : User.t) (m : string) :
  getUser_at env (tick w) = Some u ->
  respond (fault_at env (S (tick w))) (Query.latest_allocation (db w) (User.id u))
    = mkResponse None None ->
  respond (fault_at env (S (S (tick w)))) (Query.available_rooms (db w))
    = mkResponse None (Some m) ->
  outcome_of (fetch_body env) w = Throw (PostgrestError m).
Proof.
  intros Hu Hr Hf. run_fetch_body. rewrite Hu. cbn. rewrite Hr. cbn. now rewrite Hf.
Qed.

Lemma fetch_body_rooms_listed (u : User.t) (rs : option (list Room.t)) :
  getUser_at env (tick w) = Some u ->
  respond (fault_at env (S (tick w))) (Query.latest_allocation (db w) (User.id u))
    = mkResponse None None ->
  respond (fault_at env (S (S (tick w)))) (Query.available_rooms (db w))
    = mkResponse rs None ->
  outcome_of (fetch_body env) w = Return tt.
Proof.
  intros Hu Hr Hrs. run_fetch_body. rewrite Hu. cbn. rewrite Hr. cbn. now rewrite Hrs.
Qed.

(** The five paths are all there is. *)
Lemma fetch_paths :
  getUser_at env (tick w) = None
  \/ (exists u m,
        getUser_at env (tick w) = Some u /\ fault_at env (S (tick w)) = Fails m)
  \/ (exists u d,
        getUser_at env (tick w) = Some u /\
        respond (fault_at env (S (tick w))) (Query.latest_allocation (db w) (User.id u))
          = mkResponse (Some d) None)
  \/ (exists u m,
        getUser_at env (tick w) = Some u /\
        respond (fault_at env (S (tick w))) (Query.latest_allocation (db w) (User.id u))
          = mkResponse None None /\
        respond (fault_at env (S (S (tick w)))) (Query.available_rooms (db w))
          = mkResponse None (Some m))
  \/ (exists u rs,
        getUser_at env (tick w) = Some u /\
        respond (fault_at env (S (tick w))) (Query.latest_allocation (db w) (User.id u))
          = mkResponse None None /\
        respond (fault_at env (S (S (tick w)))) (Query.available_rooms (db w))
          = mkResponse rs None).
Proof.
  destruct (getUser_at env (tick w)) as [u|]; [right|now left].
  destruct (fault_at env (S (tick w))) as [| |m] eqn:F1.
  - destruct (latest_allocation_cases (db w) (User.id u))
      as [[Hq _]|[a [r [_ [_ Hq]]]]].
    + right; right.
      destruct (fault_at env (S (S (tick w)))) as [| |m2] eqn:F2.
      * left. eexists u, _. cbn. rewrite Hq. repeat split; reflexivity.
      * right. exists u, None. cbn. rewrite Hq. repeat split; reflexivity.
      * left. exists u, m2. cbn. rewrite Hq. repeat split; reflexivity.
    + right; left. eexists u, _. cbn. rewrite Hq. split; reflexivity.
  - right; right.
    destruct (fault_at env (S (S (tick w)))) as [| |m2] eqn:F2.
    + left. eexists u, _. cbn. repeat split; reflexivity.
    + right. exists u, None. cbn. repeat split; reflexivity.
    + left. exists u, m2. cbn. repeat split; reflexivity.
  - left. exists u, m. now split.
Qed.

End FetchBody.

(** [fetchCurrentAllocationAndRooms] never throws, never writes to the
    store, and leaves the booking flag alone. *)
Lemma fetch_total (env : Env) (w : World) :
  outcome_of (fetchCurrentAllocationAndRooms env) w = Return tt.
Proof.
  unfold outcome_of.
  destruct (fetch_paths env w)
    as [Hu|[[u [m [Hu Hf]]]|[[u [d [Hu Hr]]]|[[u [m [Hu [Hr Hf]]]]|[u [rs [Hu [Hr Hrs]]]]]]]].
  - now rewrite (fetch_unauthenticated env w Hu).
  - now rewrite (fetch_allocation_query_fails env w u m Hu Hf).
  - now rewrite (fetch_allocation_found env w u d Hu Hr).
  - now rewrite (fetch_rooms_query_fails env w u m Hu Hr Hf).
  - now rewrite (fetch_rooms_listed env w u rs Hu Hr Hrs).
Qed.

Lemma fetch_preserves (env : Env) (w : World) :
  let w' := world_after (fetchCurrentAllocationAndRooms env) w in
  db w' = db w /\
  bookingInProgress (view w') = bookingInProgress (view w) /\
  loading (view w') = false.
Proof.
  unfold world_after.
  destruct (fetch_paths env w)
    as [Hu|[[u [m [Hu Hf]]]|[[u [d [Hu Hr]]]|[[u [m [Hu [Hr Hf]]]]|[u [rs [Hu [Hr Hrs]]]]]]]].
  - now rewrite (fetch_unauthenticated env w Hu).
  - now rewrite (fetch_allocation_query_fails env w u m Hu Hf).
  - now rewrite (fetch_allocation_found env w u d Hu Hr).
  - now rewrite (fetch_rooms_query_fails env w u m Hu Hr Hf).
  - now rewrite (fetch_rooms_listed env w u rs Hu Hr Hrs).
Qed.

(** A resolution whose [try] block throws leaves the failure view and the
    store as it was. *)
Lemma fetch_failure_view (env : Env) (w : World) (e : exn) :
  outcome_of (fetch_body env) w = Throw e ->
  view (world_after (fetchCurrentAllocationAndRooms env) w)
    = view_failed (view w) "Failed to fetch room details" /\
  db (world_after (fetchCurrentAllocationAndRooms env) w) = db w.
Proof.
  intros He. unfold world_after.
  destruct (fetch_paths env w)
    as [Hu|[[u [m [Hu Hf]]]|[[u [d [Hu Hr]]]|[[u [m [Hu [Hr Hf]]]]|[u [rs [Hu [Hr Hrs]]]]]]]].
  - rewrite (fetch_unauthenticated env w Hu). now split.
  - rewrite (fetch_allocation_query_fails env w u m Hu Hf). now split.
  - rewrite (fetch_body_allocation_found env w u d Hu Hr) in He. discriminate.
  - rewrite (fetch_rooms_query_fails env w u m Hu Hr Hf). now split.
  - rewrite (fetch_body_rooms_listed env w u rs Hu Hr Hrs) in He. discriminate.
Qed.

Lemma new_events_app (w w' : World) (evs : list Event) :
  trace w' = trace w ++ evs -> new_events w w' = evs.
Proof.
  intros H. unfold new_events. rewrite H.
  rewrite skipn_app, skipn_all, Nat.sub_diag. reflexivity.
Qed.

(** ** The runs of [handleBookRoom], path by path *)

Section BookPaths.

Variable env : Env.
Variable roomId : string.
Variable w : World.

Lemma book_unauthenticated :
  getUser_at env (tick w) = None ->
  handleBookRoom env roomId w =
  (Return tt,
   mkWorld (booking_failed (view w) "Failed to book room. Please try again.")
     (db w) (S (tick w))
     (trace w ++ [EvGetUser None;
                  EvConsoleError "Error booking room:" (JsError "Not authenticated")])).
Proof.
  intros Hu. run_book. rewrite Hu. flatten_trace. reflexivity.
Qed.

Lemma book_body_unauthenticated :
  getUser_at env (tick w) = None ->
  outcome_of (book_body env roomId) w = Throw (JsError "Not authenticated").
Proof.
  intros Hu. unfold outcome_of, book_body, bind, auth_getUser, setBookingInProgress,
    modify_view, throw. cbn. now rewrite Hu.
Qed.

Lemma book_insert_fails (u : User.t) (m : string) :
  getUser_at env (tick w) = Some u ->
  fault_at env (S (tick w)) = Fails m ->
  handleBookRoom env roomId w =
  (Return tt,
   mkWorld (booking_failed (view w) "Failed to book room. Please try again.")
     (db w) (S (S (tick w)))
     (trace w ++ [EvGetUser (Some u);
                  EvInsert (booking_payload env w u roomId) (Some m);
                  EvConsoleError "Error booking room:" (PostgrestError m)])).
Proof.
  intros Hu Hf. run_book. rewrite Hu. cbn. rewrite Hf. flatten_trace. reflexivity.
Qed.

Lemma book_body_insert_fails (u : User.t) (m : string) :
  getUser_at env (tick w) = Some u ->
  fault_at env (S (tick w)) = Fails m ->
  outcome_of (book_body env roomId) w = Throw (PostgrestError m).
Proof.
  intros Hu Hf. unfold outcome_of, book_body, bind, auth_getUser, new_Date,
    insert_room_allocation, setBookingInProgress, modify_view, throw, emit, await.
  cbn. rewrite Hu. cbn. now rewrite Hf.
Qed.

Lemma book_insert_succeeds (u : User.t) :
  getUser_at env (tick w) = Some u ->
  failed (fault_at env (S (tick w))) = false ->
  let w2 := world_after (fetchCurrentAllocationAndRooms env) (after_insert env w u roomId) in
  handleBookRoom env roomId w =
  (Return tt,
   mkWorld
     (mkView (loading (view w2)) (currentAllocation (view w2))
        (availableRooms (view w2)) (error_message (view w2)) false)
     (db w2) (tick w2) (trace w2)).
Proof.
  intros Hu Hf w2.
  pose proof (fetch_total env (after_insert env w u roomId)) as Htot.
  unfold outcome_of in Htot. subst w2. unfold world_after.
  unfold after_insert, booking_payload in *.
  run_book. rewrite Hu. cbn.
  destruct (fault_at env (S (tick w))); try discriminate Hf; cbn;
    rewrite <- app_assoc; cbn;
    destruct (fetchCurrentAllocationAndRooms env _) as [o w']; cbn in *;
    subst o; reflexivity.
Qed.

End BookPaths.

(** ** The allocation resolver *)

(** The rooms request as the component sends it is turned down by the
    store, whatever the tables hold. *)
Lemma available_rooms_rejected (st : Store) :
  Query.available_rooms st =
  mkResponse None (Some "failed to parse filter (not.in.[object Object])").
Proof. reflexivity. Qed.

Lemma in_rooms_with_no_open_allocation (st : Store) (r : Room.t) :
  In r (rooms_with_no_open_allocation st) <->
  In r (rooms st) /\
  ~ (exists a, In a (room_allocations st) /\ Row.end_date a = None /\
               Row.room_id a = Room.id r).
Proof.
  unfold rooms_with_no_open_allocation. rewrite filter_In, forallb_forall.
  split; intros [Hin H]; (split; [assumption|]).
  - intros [a [Ha [Hend Hid]]]. specialize (H a Ha).
    unfold Query.is_end_date_null in H. rewrite Hend in H.
    apply String.eqb_eq in Hid. rewrite Hid in H. discriminate.
  - intros a Ha. destruct (Query.is_end_date_null a) eqn:Hnull; [|reflexivity].
    destruct (String.eqb (Row.room_id a) (Room.id r)) eqn:Hid; [|reflexivity].
    exfalso. apply H. exists a. split; [assumption|]. split.
    + unfold Query.is_end_date_null in Hnull. now destruct (Row.end_date a).
    + now apply String.eqb_eq.
Qed.

(** C1.  When the signed-in identity has at least one allocation record,
    ended or not, and the first query is answered, the resolver sets the
    current allocation to a record of that identity whose start is not
    earlier than that of any other record of the identity, together with the
    room the record names; the available-room list keeps its value and the
    room query is never issued. *)
Theorem resolve_returns_latest_allocation (env : Env) (w : World) (u : User.t) :
  getUser_at env (tick w) = Some u ->
  fault_at env (S (tick w)) = NoFault ->
  referential_integrity (db w) = true ->
  has_allocation (db w) (User.id u) = true ->
  let w' := world_after (fetchCurrentAllocationAndRooms env) w in
  exists a r,
    In a (room_allocations (db w)) /\
    Row.student_id a = User.id u /\
    (forall b, In b (room_allocations (db w)) -> Row.student_id b = User.id u ->
               Row.start_date b <= Row.start_date a) /\
    In r (rooms (db w)) /\
    Room.id r = Row.room_id a /\
    currentAllocation (view w') =
      Some (RoomAllocation.mk (Row.id a) r (Row.start_date a) (Row.end_date a)) /\
    availableRooms (view w') = availableRooms (view w) /\
    existsb is_rooms_query (new_events w w') = false.
Proof.
  intros Hu Hf Hfk Hhas w'.
  destruct (latest_allocation_some (db w) (User.id u) Hfk Hhas)
    as [a [r [Ha [Hs [Hmax [Hr [Hid Hq]]]]]]].
  assert (respond (fault_at env (S (tick w)))
            (Query.latest_allocation (db w) (User.id u))
          = mkResponse (Some (Query.project (a, r))) None) as Hresp.
  { rewrite Hf. exact Hq. }
  pose proof (fetch_allocation_found env w u _ Hu Hresp) as Hrun.
  exists a, r. subst w'. unfold world_after. rewrite Hrun.
  repeat split; try assumption.
  erewrite new_events_app; [|reflexivity]. reflexivity.
Qed.

Lemma resolve_returns_latest_allocation_witness :
  referential_integrity mixed_store = true /\
  has_allocation mixed_store "studentA" = true /\
  exists a r,
    In a (room_allocations mixed_store) /\
    Row.student_id a = "studentA" /\
    (forall b, In b (room_allocations mixed_store) -> Row.student_id b = "studentA" ->
               Row.start_date b <= Row.start_date a) /\
    In r (rooms mixed_store) /\
    Room.id r = Row.room_id a /\
    currentAllocation
      (view (world_after
               (fetchCurrentAllocationAndRooms (calm_session studentA 1000 "a1"))
               (mount mixed_store))) =
      Some (RoomAllocation.mk (Row.id a) r (Row.start_date a) (Row.end_date a)) /\
    availableRooms
      (view (world_after
               (fetchCurrentAllocationAndRooms (calm_session studentA 1000 "a1"))
               (mount mixed_store))) = [] /\
    existsb is_rooms_query
      (new_events (mount mixed_store)
         (world_after
            (fetchCurrentAllocationAndRooms (calm_session studentA 1000 "a1"))
            (mount mixed_store))) = false.
Proof.
  split; [reflexivity|]. split; [reflexivity|].
  exact (resolve_returns_latest_allocation
           (calm_session studentA 1000 "a1") (mount mixed_store) studentA
           eq_refl eq_refl eq_refl eq_refl).
Defined.

(** C2.  What the code does where the claim expects the free rooms.  When
    the signed-in identity has no allocation record and the first query is
    answered, the rooms request goes out with the operand
    ["[object Object]"]; a store that is reached turns it down, the run logs
    the error, shows "Failed to fetch room details" and leaves the
    available-room list as it was.  Only a reply with a null payload and no
    error sets the list, to the empty sequence. *)
Theorem resolve_without_allocation_lists_no_room
    (env : Env) (w : World) (u : User.t) :
  getUser_at env (tick w) = Some u ->
  has_allocation (db w) (User.id u) = false ->
  failed (fault_at env (S (tick w))) = false ->
  let w' := world_after (fetchCurrentAllocationAndRooms env) w in
  (fault_at env (S (S (tick w))) = NoFault ->
     new_events w w' =
       [EvGetUser (Some u);
        EvSelectAllocation (User.id u) (mkResponse None None);
        EvSelectRooms
          (mkResponse None (Some "failed to parse filter (not.in.[object Object])"));
        EvConsoleError "Error fetching rooms:"
          (PostgrestError "failed to parse filter (not.in.[object Object])");
        EvConsoleError "Error:"
          (PostgrestError "failed to parse filter (not.in.[object Object])")] /\
     error_message (view w') = Some "Failed to fetch room details" /\
     availableRooms (view w') = availableRooms (view w))
  /\
  (fault_at env (S (S (tick w))) = NullData ->
     availableRooms (view w') = [] /\
     error_message (view w') = error_message (view w)).
Proof.
  intros Hu Hno Hf w'.
  assert (respond (fault_at env (S (tick w)))
            (Query.latest_allocation (db w) (User.id u)) = mkResponse None None)
    as Hresp.
  { destruct (fault_at env (S (tick w))); try discriminate Hf; cbn;
      [now apply latest_allocation_none | reflexivity]. }
  split; intros Hf2.
  - assert (respond (fault_at env (S (S (tick w)))) (Query.available_rooms (db w))
            = mkResponse None
                (Some "failed to parse filter (not.in.[object Object])")) as Hrooms.
    { rewrite Hf2. apply available_rooms_rejected. }
    subst w'. unfold world_after.
    rewrite (fetch_rooms_query_fails env w u _ Hu Hresp Hrooms).
    erewrite new_events_app; [|reflexivity]. repeat split.
  - assert (respond (fault_at env (S (S (tick w)))) (Query.available_rooms (db w))
            = mkResponse None None) as Hrooms.
    { rewrite Hf2. reflexivity. }
    subst w'. unfold world_after.
    rewrite (fetch_rooms_listed env w u _ Hu Hresp Hrooms). cbn. now split.
Qed.

Lemma resolve_without_allocation_lists_no_room_witness :
  has_allocation two_rooms "studentA" = false /\
  rooms_with_no_open_allocation two_rooms = [R1; R2] /\
  availableRooms
    (view (world_after
             (fetchCurrentAllocationAndRooms (calm_session studentA 1000 "a1"))
             (mount two_rooms))) = [] /\
  error_message
    (view (world_after
             (fetchCurrentAllocationAndRooms (calm_session studentA 1000 "a1"))
             (mount two_rooms))) = Some "Failed to fetch room details" /\
  availableRooms
    (view (world_after
             (fetchCurrentAllocationAndRooms (null_at studentA 2))
             (mount two_rooms))) = [].
Proof.
  split; [reflexivity|]. split; [reflexivity|].
  destruct (proj1 (resolve_without_allocation_lists_no_room
                     (calm_session studentA 1000 "a1") (mount two_rooms) studentA
                     eq_refl eq_refl eq_refl) eq_refl) as [_ [Herr Hrooms]].
  split; [exact Hrooms|]. split; [exact Herr|].
  exact (proj1 (proj2 (resolve_without_allocation_lists_no_room
                         (null_at studentA 2) (mount two_rooms) studentA
                         eq_refl eq_refl eq_refl) eq_refl)).
Defined.

(** ** The booking committer *)

Lemma find_room_of_existing (st : Store) (roomId : string) :
  room_exists st roomId = true ->
  exists r, find (fun r => String.eqb (Room.id r) roomId) (rooms st) = Some r.
Proof.
  intros H. destruct (find _ (rooms st)) as [r|] eqn:E; [now exists r|].
  apply existsb_exists in H. destruct H as [r [Hin Heq]].
  pose proof (find_none _ _ E r Hin) as Hf. simpl in Hf. congruence.
Qed.

(** In a store whose last row is a fresh allocation of [uid] dated after all
    the other rows of [uid], on an existing room, the first query answers
    that row. *)
Lemma latest_allocation_after_insert
    (st : Store) (new_id uid roomId : string) (now : timestamp) :
  room_exists st roomId = true ->
  all_started_before st uid now = true ->
  exists r,
    In r (rooms st) /\ Room.id r = roomId /\
    Query.latest_allocation (Query.insert st new_id (Payload.mk uid roomId now None)) uid
    = mkResponse (Some (RoomAllocationResponse.mk new_id now None r)) None.
Proof.
  intros Hroom Hbefore.
  set (row := Row.mk new_id uid roomId now None).
  set (st' := Query.insert st new_id (Payload.mk uid roomId now None)).
  destruct (find_room_of_existing st roomId Hroom) as [r0 Hr0].
  assert (In (row, r0) (Query.eq_student_id uid (Query.from_room_allocations st')))
    as Hnew.
  { apply in_eq_student_id. cbn. repeat split; try assumption.
    apply in_or_app. right. now left. }
  destruct (latest_allocation_cases st' uid) as [[_ Hnil]|[a [r [Hin [Hmax Hq]]]]].
  - rewrite Hnil in Hnew. contradiction.
  - pose proof (Hmax row r0 Hnew) as Hle. cbn in Hle.
    apply in_eq_student_id in Hin. destruct Hin as [Ha [Hs Hf]].
    cbn in Ha. apply in_app_or in Ha. destruct Ha as [Hold|[<-|[]]].
    + unfold all_started_before in Hbefore. rewrite forallb_forall in Hbefore.
      specialize (Hbefore a Hold). apply String.eqb_eq in Hs. rewrite Hs in Hbefore.
      cbn in Hbefore. apply Z.ltb_lt in Hbefore. lia.
    + apply find_room_some in Hf. destruct Hf as [Hr Hid].
      exists r. cbn in Hr, Hid. repeat split; try assumption.
Qed.

(** C3, as the code has it.  Whenever the insert of a booking by a
    signed-in identity succeeds, the store holds exactly one more allocation
    record, [{student: identity, room: roomId, start: now, end: null}], and
    the same rooms.  If moreover [roomId] names a room of the store and every
    earlier record of the identity starts before [now], a subsequent
    resolution for that identity whose first query is answered sets the
    current allocation to the new record, open-ended, joined with the room
    named [roomId]. *)
Theorem book_then_resolve_shows_booked_room
    (env env2 : Env) (w : World) (u : User.t) (roomId : string) :
  getUser_at env (tick w) = Some u ->
  failed (fault_at env (S (tick w))) = false ->
  let w1 := world_after (handleBookRoom env roomId) w in
  (room_allocations (db w1) =
     room_allocations (db w) ++
       [Row.mk (uuid_at env (S (tick w))) (User.id u) roomId
          (now_at env (S (tick w))) None]
   /\ rooms (db w1) = rooms (db w))
  /\
  (room_exists (db w) roomId = true ->
   all_started_before (db w) (User.id u) (now_at env (S (tick w))) = true ->
   getUser_at env2 (tick w1) = Some u ->
   fault_at env2 (S (tick w1)) = NoFault ->
   exists r,
     In r (rooms (db w)) /\ Room.id r = roomId /\
     currentAllocation (view (world_after (fetchCurrentAllocationAndRooms env2) w1)) =
       Some (RoomAllocation.mk (uuid_at env (S (tick w))) r
               (now_at env (S (tick w))) None)).
Proof.
  intros Hu Hf w1.
  assert (db w1 = Query.insert (db w) (uuid_at env (S (tick w)))
                    (booking_payload env w u roomId)) as Hdb.
  { subst w1. unfold world_after.
    rewrite (book_insert_succeeds env roomId w u Hu Hf). cbn.
    now destruct (fetch_preserves env (after_insert env w u roomId)) as [-> _]. }
  split; [now rewrite Hdb|].
  intros Hroom Hbefore Hu2 Hf2.
  destruct (latest_allocation_after_insert (db w) (uuid_at env (S (tick w)))
              (User.id u) roomId (now_at env (S (tick w))) Hroom Hbefore)
    as [r [Hr [Hid Hq]]].
  exists r. split; [assumption|]. split; [assumption|].
  assert (respond (fault_at env2 (S (tick w1)))
            (Query.latest_allocation (db w1) (User.id u))
          = mkResponse
              (Some (RoomAllocationResponse.mk (uuid_at env (S (tick w)))
                       (now_at env (S (tick w))) None r)) None) as Hresp.
  { rewrite Hf2, Hdb. exact Hq. }
  unfold world_after.
  rewrite (fetch_allocation_found env2 w1 u _ Hu2 Hresp). reflexivity.
Qed.

Lemma book_then_resolve_shows_booked_room_witness :
  room_exists mixed_store "R1" = true /\
  all_started_before mixed_store "studentA" 1000 = true /\
  (room_allocations
     (db (world_after (handleBookRoom (calm_session studentA 1000 "a9") "R1")
            (mount mixed_store)))
   = room_allocations mixed_store ++ [Row.mk "a9" "studentA" "R1" 1000 None] /\
   rooms
     (db (world_after (handleBookRoom (calm_session studentA 1000 "a9") "R1")
            (mount mixed_store)))
   = [R1; R2]) /\
  exists r,
    In r [R1; R2] /\ Room.id r = "R1" /\
    currentAllocation
      (view (world_after
               (fetchCurrentAllocationAndRooms (calm_session studentA 1000 "a9"))
               (world_after (handleBookRoom (calm_session studentA 1000 "a9") "R1")
                  (mount mixed_store))))
    = Some (RoomAllocation.mk "a9" r 1000 None).
Proof.
  split; [reflexivity|]. split; [reflexivity|].
  destruct (book_then_resolve_shows_booked_room
              (calm_session studentA 1000 "a9") (calm_session studentA 1000 "a9")
              (mount mixed_store) studentA "R1" eq_refl eq_refl)
    as [Hinsert Hresolve].
  split; [exact Hinsert|].
  exact (Hresolve eq_refl eq_refl eq_refl eq_refl).
Defined.

(** C3 as written fails: [studentA] already has a record dated after the
    clock of the booking session.  The insert succeeds, no error is shown,
    and the resolution that follows still shows the other record, on another
    room and with its end set. *)
Lemma book_then_resolve_counterexample :
  getUser_at (calm_session studentA 1000 "a1") 0 = Some studentA /\
  room_allocations
    (db (world_after (handleBookRoom (calm_session studentA 1000 "a1") "R1")
           (mount later_allocation)))
  = room_allocations later_allocation ++ [Row.mk "a1" "studentA" "R1" 1000 None] /\
  new_events (mount later_allocation)
    (world_after (handleBookRoom (calm_session studentA 1000 "a1") "R1")
       (mount later_allocation))
  = [EvGetUser (Some studentA);
     EvInsert (Payload.mk "studentA" "R1" 1000 None) None;
     EvGetUser (Some studentA);
     EvSelectAllocation "studentA"
       (mkResponse (Some (RoomAllocationResponse.mk "a0" 2000 (Some 3000) R2)) None)] /\
  ~ (exists a,
        currentAllocation
          (view (world_after
                   (fetchCurrentAllocationAndRooms (calm_session studentA 1000 "a1"))
                   (world_after (handleBookRoom (calm_session studentA 1000 "a1") "R1")
                      (mount later_allocation))))
        = Some a /\
        Room.id (RoomAllocation.room a) = "R1" /\
        RoomAllocation.end_date a = None).
Proof.
  split; [reflexivity|]. split; [reflexivity|]. split; [reflexivity|].
  intros [a [Hcur [Hroom _]]].
  vm_compute in Hcur. inversion Hcur; subst a. discriminate Hroom.
Qed.

(** C4.  What the code does on the scenario.  With rooms R1 and R2 and no
    allocation record, the resolution for student A lists no room: its rooms
    request is turned down and the fetch failure message is shown.  A
    booking of R1 by A is inserted all the same, and the resolution that
    follows shows A the open allocation on R1.  The resolution for student B
    on the resulting store lists no room either, where the scenario expects
    R2 alone. *)
Theorem scenario_two_rooms_as_run (now : timestamp) (new_id : string) :
  let sessionA := calm_session studentA now new_id in
  let sessionB := calm_session studentB now new_id in
  let w1 := world_after (fetchCurrentAllocationAndRooms sessionA) (mount two_rooms) in
  let w2 := world_after (handleBookRoom sessionA "R1") w1 in
  let w3 := world_after (fetchCurrentAllocationAndRooms sessionA) w2 in
  let wB := world_after (fetchCurrentAllocationAndRooms sessionB) (mount (db w3)) in
  (rooms_with_no_open_allocation two_rooms = [R1; R2] /\
   availableRooms (view w1) = [] /\
   error_message (view w1) = Some "Failed to fetch room details") /\
  room_allocations (db w2) = [Row.mk new_id "studentA" "R1" now None] /\
  currentAllocation (view w3) = Some (RoomAllocation.mk new_id R1 now None) /\
  (rooms_with_no_open_allocation (db w3) = [R2] /\
   currentAllocation (view wB) = None /\
   availableRooms (view wB) = [] /\
   error_message (view wB) = Some "Failed to fetch room details").
Proof.
  cbv. repeat split; reflexivity.
Qed.

(** C5.  When nobody is signed in, booking any room throws "Not
    authenticated" inside its [try] block; the store is left as it was, no
    request reaches the store, and the booking failure message is shown. *)
Theorem book_unauthenticated_no_insert (env : Env) (roomId : string) (w : World) :
  getUser_at env (tick w) = None ->
  let w' := world_after (handleBookRoom env roomId) w in
  outcome_of (book_body env roomId) w = Throw (JsError "Not authenticated") /\
  db w' = db w /\
  existsb is_insert (new_events w w') = false /\
  existsb is_store_request (new_events w w') = false /\
  error_message (view w') = Some "Failed to book room. Please try again.".
Proof.
  intros Hu w'. split; [now apply book_body_unauthenticated|].
  subst w'. unfold world_after. rewrite (book_unauthenticated env roomId w Hu).
  erewrite new_events_app; [|reflexivity]. repeat split; reflexivity.
Qed.

Lemma book_unauthenticated_no_insert_witness :
  outcome_of (book_body signed_out "R1") (mount two_rooms)
    = Throw (JsError "Not authenticated") /\
  db (world_after (handleBookRoom signed_out "R1") (mount two_rooms)) = two_rooms /\
  existsb is_insert
    (new_events (mount two_rooms)
       (world_after (handleBookRoom signed_out "R1") (mount two_rooms))) = false /\
  existsb is_store_request
    (new_events (mount two_rooms)
       (world_after (handleBookRoom signed_out "R1") (mount two_rooms))) = false /\
  error_message (view (world_after (handleBookRoom signed_out "R1") (mount two_rooms)))
    = Some "Failed to book room. Please try again.".
Proof.
  exact (book_unauthenticated_no_insert signed_out "R1" (mount two_rooms) eq_refl).
Defined.

(** C6.  When a store query of a resolution comes back with an error, the
    [try] block throws that error, the message "Failed to fetch room
    details" is shown, the current allocation and the available-room list
    keep their values, and the failed query is the last request the run
    sends to the store: it is not tried again. *)
Theorem resolve_query_failure (env : Env) (w : World) :
  let w' := world_after (fetchCurrentAllocationAndRooms env) w in
  existsb query_failed (new_events w w') = true ->
  (exists m, outcome_of (fetch_body env) w = Throw (PostgrestError m)) /\
  error_message (view w') = Some "Failed to fetch room details" /\
  availableRooms (view w') = availableRooms (view w) /\
  currentAllocation (view w') = currentAllocation (view w) /\
  (exists pre ev post,
      new_events w w' = pre ++ ev :: post /\
      query_failed ev = true /\
      existsb query_failed pre = false /\
      existsb is_store_request post = false).
Proof.
  intros w'. subst w'. unfold world_after.
  destruct (fetch_paths env w)
    as [Hu|[[u [m [Hu Hf]]]|[[u [d [Hu Hr]]]|[[u [m [Hu [Hr Hf]]]]|[u [rs [Hu [Hr Hrs]]]]]]]].
  - rewrite (fetch_unauthenticated env w Hu).
    erewrite new_events_app; [|reflexivity]. discriminate.
  - rewrite (fetch_allocation_query_fails env w u m Hu Hf).
    erewrite new_events_app; [|reflexivity]. intros _.
    split; [exists m; now apply (fetch_body_allocation_query_fails env w u)|].
    repeat split.
    exists [EvGetUser (Some u)], (EvSelectAllocation (User.id u) (mkResponse None (Some m))).
    eexists. repeat split.
  - rewrite (fetch_allocation_found env w u d Hu Hr).
    erewrite new_events_app; [|reflexivity]. discriminate.
  - rewrite (fetch_rooms_query_fails env w u m Hu Hr Hf).
    erewrite new_events_app; [|reflexivity]. intros _.
    split; [exists m; now apply (fetch_body_rooms_query_fails env w u)|].
    repeat split.
    exists [EvGetUser (Some u); EvSelectAllocation (User.id u) (mkResponse None None)],
      (EvSelectRooms (mkResponse None (Some m))).
    eexists. repeat split.
  - rewrite (fetch_rooms_listed env w u rs Hu Hr Hrs).
    erewrite new_events_app; [|reflexivity]. discriminate.
Qed.

Lemma resolve_query_failure_witness :
  error_message
    (view (world_after (fetchCurrentAllocationAndRooms (failing_at studentA 2 "timeout"))
             (mount two_rooms)))
    = Some "Failed to fetch room details" /\
  availableRooms
    (view (world_after (fetchCurrentAllocationAndRooms (failing_at studentA 2 "timeout"))
             (mount two_rooms)))
    = [].
Proof.
  destruct (resolve_query_failure (failing_at studentA 2 "timeout") (mount two_rooms)
              eq_refl) as [_ [Herr [Hrooms _]]].
  split; [exact Herr | exact Hrooms].
Defined.

(** C7.  When the insert of a booking comes back with an error, whatever
    the error, the run logs it under "Error booking room:", shows "Failed to
    book room. Please try again.", leaves the store as it was, and sends
    nothing further: the insert is requested once and no resolution
    follows. *)
Theorem book_insert_failure
    (env : Env) (roomId : string) (w : World) (u : User.t) (m : string) :
  getUser_at env (tick w) = Some u ->
  fault_at env (S (tick w)) = Fails m ->
  let w' := world_after (handleBookRoom env roomId) w in
  outcome_of (book_body env roomId) w = Throw (PostgrestError m) /\
  new_events w w' =
    [EvGetUser (Some u);
     EvInsert (Payload.mk (User.id u) roomId (now_at env (S (tick w))) None) (Some m);
     EvConsoleError "Error booking room:" (PostgrestError m)] /\
  error_message (view w') = Some "Failed to book room. Please try again." /\
  db w' = db w.
Proof.
  intros Hu Hf w'. split; [now apply (book_body_insert_fails env roomId w u)|].
  subst w'. unfold world_after. rewrite (book_insert_fails env roomId w u m Hu Hf).
  erewrite new_events_app; [|reflexivity]. repeat split; reflexivity.
Qed.

Lemma book_insert_failure_witness :
  outcome_of (book_body (failing_at studentA 1 "duplicate key") "R1") (mount two_rooms)
    = Throw (PostgrestError "duplicate key") /\
  new_events (mount two_rooms)
    (world_after (handleBookRoom (failing_at studentA 1 "duplicate key") "R1")
       (mount two_rooms)) =
    [EvGetUser (Some studentA);
     EvInsert (Payload.mk "studentA" "R1" 1000 None) (Some "duplicate key");
     EvConsoleError "Error booking room:" (PostgrestError "duplicate key")] /\
  error_message
    (view (world_after (handleBookRoom (failing_at studentA 1 "duplicate key") "R1")
             (mount two_rooms)))
    = Some "Failed to book room. Please try again." /\
  db (world_after (handleBookRoom (failing_at studentA 1 "duplicate key") "R1")
        (mount two_rooms)) = two_rooms.
Proof.
  exact (book_insert_failure (failing_at studentA 1 "duplicate key") "R1"
           (mount two_rooms) studentA "duplicate key" eq_refl eq_refl).
Defined.

(** C8.  Both operations always complete normally; after a resolution the
    loading flag is false, and after a booking the booking-in-progress flag
    is false, whichever path the run took. *)
Theorem flags_cleared_on_completion (env : Env) (roomId : string) (w : World) :
  (outcome_of (fetchCurrentAllocationAndRooms env) w = Return tt /\
   loading (view (world_after (fetchCurrentAllocationAndRooms env) w)) = false) /\
  (outcome_of (handleBookRoom env roomId) w = Return tt /\
   bookingInProgress (view (world_after (handleBookRoom env roomId) w)) = false).
Proof.
  split.
  - split; [apply fetch_total | apply fetch_preserves].
  - unfold outcome_of, world_after.
    destruct (getUser_at env (tick w)) as [u|] eqn:Hu.
    + destruct (fault_at env (S (tick w))) as [| |m] eqn:Hf.
      * rewrite (book_insert_succeeds env roomId w u Hu); [now split|now rewrite Hf].
      * rewrite (book_insert_succeeds env roomId w u Hu); [now split|now rewrite Hf].
      * rewrite (book_insert_fails env roomId w u m Hu Hf). now split.
    + rewrite (book_unauthenticated env roomId w Hu). now split.
Qed.

(** C9.  A resolution that finds an allocation record sends no room query
    and leaves the available-room list as it was.  A resolution whose [try]
    block throws changes the error message and nothing else of what the
    view shows: the current allocation and the available-room list stay as
    they were (the loading flag is cleared as after every run). *)
Theorem resolve_frame (env : Env) (w : World) :
  let w' := world_after (fetchCurrentAllocationAndRooms env) w in
  (forall u d,
      getUser_at env (tick w) = Some u ->
      respond (fault_at env (S (tick w))) (Query.latest_allocation (db w) (User.id u))
        = mkResponse (Some d) None ->
      new_events w w' =
        [EvGetUser (Some u); EvSelectAllocation (User.id u) (mkResponse (Some d) None)] /\
      availableRooms (view w') = availableRooms (view w) /\
      error_message (view w') = error_message (view w))
  /\
  (forall e,
      outcome_of (fetch_body env) w = Throw e ->
      view w' = view_failed (view w) "Failed to fetch room details" /\
      db w' = db w).
Proof.
  intros w'. subst w'. split.
  - intros u d Hu Hr. unfold world_after.
    rewrite (fetch_allocation_found env w u d Hu Hr).
    erewrite new_events_app; [|reflexivity]. repeat split.
  - intros e He. now apply (fetch_failure_view env w e).
Qed.

Lemma resolve_frame_witness :
  (new_events (mount mixed_store)
     (world_after (fetchCurrentAllocationAndRooms (calm_session studentB 1000 "b1"))
        (mount mixed_store))
   = [EvGetUser (Some studentB);
      EvSelectAllocation "studentB"
        (mkResponse (Some (RoomAllocationResponse.mk "b0" 300 None R1)) None)] /\
   availableRooms
     (view (world_after (fetchCurrentAllocationAndRooms (calm_session studentB 1000 "b1"))
              (mount mixed_store))) = [] /\
   error_message
     (view (world_after (fetchCurrentAllocationAndRooms (calm_session studentB 1000 "b1"))
              (mount mixed_store))) = None)
  /\
  (view (world_after (fetchCurrentAllocationAndRooms (failing_at studentA 1 "timeout"))
           (mount mixed_store))
   = view_failed initial_view "Failed to fetch room details" /\
   db (world_after (fetchCurrentAllocationAndRooms (failing_at studentA 1 "timeout"))
         (mount mixed_store)) = mixed_store).
Proof.
  split.
  - exact (proj1 (resolve_frame (calm_session studentB 1000 "b1") (mount mixed_store))
             studentB (RoomAllocationResponse.mk "b0" 300 None R1) eq_refl eq_refl).
  - exact (proj2 (resolve_frame (failing_at studentA 1 "timeout") (mount mixed_store))
             (PostgrestError "timeout") eq_refl).
Defined.

(** C10.  When nobody is signed in, a resolution sends no request to the
    store: it asks who is signed in, logs the error and stops.  The view it
    leaves is the one a failed store query leaves from the same starting
    view, so the two cannot be told apart from the view. *)
Theorem resolve_unauthenticated (env : Env) (w : World) :
  getUser_at env (tick w) = None ->
  let w' := world_after (fetchCurrentAllocationAndRooms env) w in
  outcome_of (fetch_body env) w = Throw (JsError "Not authenticated") /\
  new_events w w' =
    [EvGetUser None; EvConsoleError "Error:" (JsError "Not authenticated")] /\
  existsb is_store_request (new_events w w') = false /\
  error_message (view w') = Some "Failed to fetch room details" /\
  (forall env2 w2 m,
      view w2 = view w ->
      outcome_of (fetch_body env2) w2 = Throw (PostgrestError m) ->
      view (world_after (fetchCurrentAllocationAndRooms env2) w2) = view w').
Proof.
  intros Hu w'. split; [now apply fetch_body_unauthenticated|].
  subst w'. unfold world_after. rewrite (fetch_unauthenticated env w Hu).
  erewrite new_events_app; [|reflexivity]. repeat split.
  intros env2 w2 m Hv He.
  destruct (fetch_failure_view env2 w2 _ He) as [Hview _].
  unfold world_after in Hview. rewrite Hview, Hv. reflexivity.
Qed.

Lemma resolve_unauthenticated_witness :
  outcome_of (fetch_body signed_out) (mount two_rooms)
    = Throw (JsError "Not authenticated") /\
  new_events (mount two_rooms)
    (world_after (fetchCurrentAllocationAndRooms signed_out) (mount two_rooms))
    = [EvGetUser None; EvConsoleError "Error:" (JsError "Not authenticated")] /\
  view (world_after (fetchCurrentAllocationAndRooms (failing_at studentA 1 "timeout"))
          (mount two_rooms))
    = view (world_after (fetchCurrentAllocationAndRooms signed_out) (mount two_rooms)).
Proof.
  destruct (resolve_unauthenticated signed_out (mount two_rooms) eq_refl)
    as [Hbody [Hev [_ [_ Hsame]]]].
  split; [exact Hbody|]. split; [exact Hev|].
  exact (Hsame (failing_at studentA 1 "timeout") (mount two_rooms) "timeout"
           eq_refl eq_refl).
Defined.

(** ** Further properties of the queries *)

Lemma insert_desc_permutation x rows :
  Permutation (x :: rows) (Query.insert_desc x rows).
Proof.
  induction rows as [|y rest IH]; simpl; [reflexivity|].
  destruct (Row.start_date (fst y) <? Row.start_date (fst x)); [reflexivity|].
  rewrite perm_swap. now apply perm_skip.
Qed.

Lemma insert_desc_sorted x rows :
  sorted_desc rows -> sorted_desc (Query.insert_desc x rows).
Proof.
  induction rows as [|y rest IH]; simpl.
  - intros _. split; [intros z []|exact I].
  - intros [Hy Hrest].
    destruct (Row.start_date (fst y) <? Row.start_date (fst x)) eqn:E; simpl.
    + apply Z.ltb_lt in E. split; [|now split].
      intros z [<-|Hz]; [lia|]. specialize (Hy z Hz). lia.
    + apply Z.ltb_ge in E. split; [|now apply IH].
      intros z Hz. apply in_insert_desc in Hz. destruct Hz as [->|Hz]; [lia|].
      now apply Hy.
Qed.

(** X1.  The ordering of the first query returns the rows it is given,
    each as often as it came, in descending order of start. *)
Theorem order_start_date_desc_sorts (rows : list (Row.t * Room.t)) :
  Permutation rows (Query.order_start_date_desc rows) /\
  sorted_desc (Query.order_start_date_desc rows).
Proof.
  induction rows as [|x rest [IHp IHs]]; simpl.
  - split; [reflexivity|exact I].
  - split.
    + rewrite <- insert_desc_permutation. now apply perm_skip.
    + now apply insert_desc_sorted.
Qed.

(** X2.  Whatever number of records a student has, the first query never
    comes back with the several-rows error of [maybeSingle]: it answers no
    row exactly when no record of the student joins a room, and one row
    otherwise. *)
Theorem latest_allocation_single_or_none (st : Store) (uid : string) :
  error (Query.latest_allocation st uid) = None /\
  (data (Query.latest_allocation st uid) = None <->
   Query.eq_student_id uid (Query.from_room_allocations st) = []).
Proof.
  destruct (latest_allocation_cases st uid) as [[Hq Hnil]|[a [r [Hin [_ Hq]]]]];
    rewrite Hq; cbn.
  - split; [reflexivity|]. split; intros _; [assumption|reflexivity].
  - split; [reflexivity|]. split; [discriminate|].
    intros Hnil. rewrite Hnil in Hin. contradiction.
Qed.

Lemma from_room_allocations_insert (st : Store) (new_id : string) (p : Payload.t) :
  Query.from_room_allocations (Query.insert st new_id p) =
  Query.from_room_allocations st ++
    Query.embed_rooms_inner st
      (Row.mk new_id (Payload.student_id p) (Payload.room_id p)
         (Payload.start_date p) (Payload.end_date p)).
Proof.
  unfold Query.from_room_allocations, Query.insert. cbn.
  rewrite flat_map_app. cbn. rewrite app_nil_r.
  f_equal.
Qed.

(** X3.  A record inserted for one student does not change what the first
    query answers for any other student. *)
Theorem latest_allocation_ignores_other_students
    (st : Store) (new_id uid : string) (p : Payload.t) :
  Payload.student_id p <> uid ->
  Query.latest_allocation (Query.insert st new_id p) uid =
  Query.latest_allocation st uid.
Proof.
  intros Hother. unfold Query.latest_allocation.
  rewrite from_room_allocations_insert. unfold Query.eq_student_id.
  rewrite filter_app.
  assert (filter (fun ar => String.eqb (Row.student_id (fst ar)) uid)
            (Query.embed_rooms_inner st
               (Row.mk new_id (Payload.student_id p) (Payload.room_id p)
                  (Payload.start_date p) (Payload.end_date p))) = []) as Hnone.
  { unfold Query.embed_rooms_inner.
    destruct (find _ (rooms st)); [|reflexivity]. cbn.
    apply String.eqb_neq in Hother. now rewrite Hother. }
  rewrite Hnone, app_nil_r. reflexivity.
Qed.

Lemma latest_allocation_ignores_other_students_witness :
  Query.latest_allocation
    (Query.insert mixed_store "b1" (Payload.mk "studentB" "R2" 1000 None)) "studentA"
  = Query.latest_allocation mixed_store "studentA".
Proof.
  apply (latest_allocation_ignores_other_students mixed_store "b1" "studentA"
           (Payload.mk "studentB" "R2" 1000 None)).
  discriminate.
Defined.

(** ** Further properties of the two operations *)

(** What a resolution adds to the trace: it asks who is signed in first,
    sends no insert and at most two selects. *)
Lemma fetch_events (env : Env) (w : World) :
  exists evs,
    trace (world_after (fetchCurrentAllocationAndRooms env) w) = trace w ++ evs /\
    hd_error evs = Some (EvGetUser (getUser_at env (tick w))) /\
    count_events is_insert evs = 0%nat /\
    (count_events is_store_request evs <= 2)%nat.
Proof.
  unfold world_after, count_events.
  destruct (fetch_paths env w)
    as [Hu|[[u [m [Hu Hf]]]|[[u [d [Hu Hr]]]|[[u [m [Hu [Hr Hf]]]]|[u [rs [Hu [Hr Hrs]]]]]]]];
    rewrite Hu.
  - rewrite (fetch_unauthenticated env w Hu). eexists. split; [reflexivity|].
    cbn. repeat split; lia.
  - rewrite (fetch_allocation_query_fails env w u m Hu Hf). eexists.
    split; [reflexivity|]. cbn. repeat split; lia.
  - rewrite (fetch_allocation_found env w u d Hu Hr). eexists.
    split; [reflexivity|]. cbn. repeat split; lia.
  - rewrite (fetch_rooms_query_fails env w u m Hu Hr Hf). eexists.
    split; [reflexivity|]. cbn. repeat split; lia.
  - rewrite (fetch_rooms_listed env w u rs Hu Hr Hrs). eexists.
    split; [reflexivity|]. cbn. repeat split; lia.
Qed.

(** What a resolution can do to the error message: leave it, or set the
    fetch failure message. *)
Lemma fetch_error_message (env : Env) (w : World) :
  error_message (view (world_after (fetchCurrentAllocationAndRooms env) w))
    = error_message (view w)
  \/ error_message (view (world_after (fetchCurrentAllocationAndRooms env) w))
    = Some "Failed to fetch room details".
Proof.
  unfold world_after.
  destruct (fetch_paths env w)
    as [Hu|[[u [m [Hu Hf]]]|[[u [d [Hu Hr]]]|[[u [m [Hu [Hr Hf]]]]|[u [rs [Hu [Hr Hrs]]]]]]]].
  - rewrite (fetch_unauthenticated env w Hu). now right.
  - rewrite (fetch_allocation_query_fails env w u m Hu Hf). now right.
  - rewrite (fetch_allocation_found env w u d Hu Hr). now left.
  - rewrite (fetch_rooms_query_fails env w u m Hu Hr Hf). now right.
  - rewrite (fetch_rooms_listed env w u rs Hu Hr Hrs). now left.
Qed.

(** The store a booking leaves. *)
Lemma book_db (env : Env) (roomId : string) (w : World) :
  db (world_after (handleBookRoom env roomId) w) =
  match getUser_at env (tick w) with
  | Some u =>
      if failed (fault_at env (S (tick w))) then db w
      else Query.insert (db w) (uuid_at env (S (tick w))) (booking_payload env w u roomId)
  | None => db w
  end.
Proof.
  unfold world_after.
  destruct (getUser_at env (tick w)) as [u|] eqn:Hu.
  - destruct (failed (fault_at env (S (tick w)))) eqn:Hf.
    + destruct (fault_at env (S (tick w))) as [| |m] eqn:Hm; try discriminate Hf.
      now rewrite (book_insert_fails env roomId w u m Hu Hm).
    + rewrite (book_insert_succeeds env roomId w u Hu Hf). cbn.
      now destruct (fetch_preserves env (after_insert env w u roomId)) as [-> _].
  - now rewrite (book_unauthenticated env roomId w Hu).
Qed.

Lemma book_events (env : Env) (roomId : string) (w : World) :
  exists evs,
    trace (world_after (handleBookRoom env roomId) w) = trace w ++ evs /\
    (count_events is_insert evs <= 1)%nat.
Proof.
  unfold world_after.
  destruct (getUser_at env (tick w)) as [u|] eqn:Hu.
  - destruct (failed (fault_at env (S (tick w)))) eqn:Hf.
    + destruct (fault_at env (S (tick w))) as [| |m] eqn:Hm; try discriminate Hf.
      rewrite (book_insert_fails env roomId w u m Hu Hm). eexists.
      split; [reflexivity|]. cbn. lia.
    + rewrite (book_insert_succeeds env roomId w u Hu Hf). cbn.
      destruct (fetch_events env (after_insert env w u roomId))
        as [evs [Htr [_ [Hins _]]]].
      rewrite Htr. cbn. rewrite <- app_assoc. eexists. split; [reflexivity|].
      unfold count_events in *. cbn. rewrite Hins. lia.
  - rewrite (book_unauthenticated env roomId w Hu). eexists.
    split; [reflexivity|]. cbn. lia.
Qed.

Lemma book_error_message (env : Env) (roomId : string) (w : World) :
  error_message (view (world_after (handleBookRoom env roomId) w))
    = error_message (view w)
  \/ error_message (view (world_after (handleBookRoom env roomId) w))
    = Some "Failed to fetch room details"
  \/ error_message (view (world_after (handleBookRoom env roomId) w))
    = Some "Failed to book room. Please try again.".
Proof.
  unfold world_after.
  destruct (getUser_at env (tick w)) as [u|] eqn:Hu.
  - destruct (failed (fault_at env (S (tick w)))) eqn:Hf.
    + destruct (fault_at env (S (tick w))) as [| |m] eqn:Hm; try discriminate Hf.
      rewrite (book_insert_fails env roomId w u m Hu Hm). now right; right.
    + rewrite (book_insert_succeeds env roomId w u Hu Hf). cbn.
      destruct (fetch_error_message env (after_insert env w u roomId)) as [H|H];
        unfold world_after in *; rewrite H; [now left | now right; left].
  - rewrite (book_unauthenticated env roomId w Hu). now right; right.
Qed.

(** X5.  A resolution only reads: it leaves the store and the booking flag
    as they were, sends no insert, asks who is signed in before anything
    else, and sends the store at most two requests. *)
Theorem resolve_only_reads (env : Env) (w : World) :
  let w' := world_after (fetchCurrentAllocationAndRooms env) w in
  db w' = db w /\
  bookingInProgress (view w') = bookingInProgress (view w) /\
  hd_error (new_events w w') = Some (EvGetUser (getUser_at env (tick w))) /\
  count_events is_insert (new_events w w') = 0%nat /\
  (count_events is_store_request (new_events w w') <= 2)%nat.
Proof.
  intros w'. subst w'.
  destruct (fetch_preserves env w) as [Hdb [Hflag _]].
  destruct (fetch_events env w) as [evs [Htr [Hhd [Hins Hreq]]]].
  rewrite (new_events_app _ _ _ Htr). now repeat split.
Qed.

(** X6.  Whatever the collaborators answer, a booking never touches the
    [rooms] table, sends at most one insert, and leaves the allocations
    either as they were or with exactly one more record: the signed-in
    user's, on the requested room, starting at the clock's reading, with no
    end. *)
Theorem book_store_effect (env : Env) (roomId : string) (w : World) :
  let w' := world_after (handleBookRoom env roomId) w in
  rooms (db w') = rooms (db w) /\
  (count_events is_insert (new_events w w') <= 1)%nat /\
  (room_allocations (db w') = room_allocations (db w)
   \/ exists u,
        getUser_at env (tick w) = Some u /\
        room_allocations (db w') =
          room_allocations (db w) ++
            [Row.mk (uuid_at env (S (tick w))) (User.id u) roomId
               (now_at env (S (tick w))) None]).
Proof.
  intros w'. subst w'.
  destruct (book_events env roomId w) as [evs [Htr Hins]].
  rewrite (new_events_app _ _ _ Htr). rewrite book_db.
  destruct (getUser_at env (tick w)) as [u|]; [|now repeat split; try left].
  destruct (failed (fault_at env (S (tick w)))); [now repeat split; try left|].
  repeat split; [assumption|]. right. exists u. now split.
Qed.

(** X7.  A booking does not look at the room's allocations: whenever the
    store accepts the insert, the room has one more open allocation than
    before, also when it already had one. *)
Theorem book_does_not_check_availability
    (env : Env) (roomId : string) (w : World) (u : User.t) :
  getUser_at env (tick w) = Some u ->
  failed (fault_at env (S (tick w))) = false ->
  List.length
    (open_allocations_on (db (world_after (handleBookRoom env roomId) w)) roomId)
  = S (List.length (open_allocations_on (db w) roomId)).
Proof.
  intros Hu Hf. rewrite book_db, Hu, Hf.
  unfold open_allocations_on. cbn. rewrite filter_app. cbn.
  rewrite String.eqb_refl. cbn. rewrite length_app. cbn. lia.
Qed.

Lemma book_does_not_check_availability_witness :
  List.length (open_allocations_on mixed_store "R1") = 1%nat /\
  List.length
    (open_allocations_on
       (db (world_after
              (handleBookRoom (calm_session (User.mk "studentC") 1000 "c1") "R1")
              (mount mixed_store))) "R1")
  = 2%nat.
Proof.
  split; [reflexivity|].
  exact (book_does_not_check_availability
           (calm_session (User.mk "studentC") 1000 "c1") "R1" (mount mixed_store)
           (User.mk "studentC") eq_refl eq_refl).
Defined.

(** X8.  In a store where every allocation names a room, booking an
    identifier that names a room leaves a store where every allocation names
    a room, whatever the collaborators answer. *)
Theorem book_keeps_referential_integrity (env : Env) (roomId : string) (w : World) :
  referential_integrity (db w) = true ->
  room_exists (db w) roomId = true ->
  referential_integrity (db (world_after (handleBookRoom env roomId) w)) = true.
Proof.
  intros Hfk Hroom. rewrite book_db.
  destruct (getUser_at env (tick w)) as [u|]; [|assumption].
  destruct (failed (fault_at env (S (tick w)))); [assumption|].
  unfold referential_integrity in *. cbn. rewrite forallb_app, Hfk. cbn.
  unfold room_exists in Hroom. now rewrite Hroom.
Qed.

Lemma book_keeps_referential_integrity_witness :
  referential_integrity
    (db (world_after (handleBookRoom (calm_session studentB 1000 "b1") "R2")
           (mount mixed_store))) = true.
Proof.
  exact (book_keeps_referential_integrity (calm_session studentB 1000 "b1") "R2"
           (mount mixed_store) eq_refl eq_refl).
Defined.

(** ** What the user is shown *)

Lemma render_error (v : View) :
  loading v = false ->
  truthy (error_message v) = true ->
  exists m, error_message v = Some m /\ render v = ErrorBox m.
Proof.
  intros Hl Ht. unfold render. rewrite Hl, Ht.
  destruct (error_message v) as [m|]; [|discriminate Ht].
  exists m. now split.
Qed.

Lemma render_allocated (v : View) (a : RoomAllocation.t) :
  loading v = false ->
  truthy (error_message v) = false ->
  currentAllocation v = Some a ->
  render v = AllocatedView (Room.room_number (RoomAllocation.room a)).
Proof.
  intros Hl Ht Ha. unfold render. now rewrite Hl, Ht, Ha.
Qed.

Lemma render_rooms (v : View) :
  loading v = false ->
  truthy (error_message v) = false ->
  currentAllocation v = None ->
  bookable (render v) = map Room.id (availableRooms v).
Proof.
  intros Hl Ht Ha. unfold render. rewrite Hl, Ht, Ha.
  destruct (availableRooms v) as [|r rest]; [reflexivity|].
  cbn. f_equal. rewrite map_map. reflexivity.
Qed.

Lemma book_loading (env : Env) (roomId : string) (w : World) :
  loading (view w) = false ->
  loading (view (world_after (handleBookRoom env roomId) w)) = false.
Proof.
  intros Hl. unfold world_after.
  destruct (getUser_at env (tick w)) as [u|] eqn:Hu.
  - destruct (failed (fault_at env (S (tick w)))) eqn:Hf.
    + destruct (fault_at env (S (tick w))) as [| |m] eqn:Hm; try discriminate Hf.
      now rewrite (book_insert_fails env roomId w u m Hu Hm).
    + rewrite (book_insert_succeeds env roomId w u Hu Hf). cbn.
      apply fetch_preserves.
  - now rewrite (book_unauthenticated env roomId w Hu).
Qed.

(** X9.  No path of either operation clears the error message: once a
    message is set, it is still set after any resolution and after any
    booking, and the screen that follows is the error box. *)
Theorem error_display_is_terminal (env : Env) (roomId : string) (w : World) :
  truthy (error_message (view w)) = true ->
  (exists m,
      render (view (world_after (fetchCurrentAllocationAndRooms env) w)) = ErrorBox m)
  /\
  (loading (view w) = false ->
   exists m, render (view (world_after (handleBookRoom env roomId) w)) = ErrorBox m).
Proof.
  intros Ht. split.
  - destruct (fetch_preserves env w) as [_ [_ Hl]].
    assert (truthy (error_message
                      (view (world_after (fetchCurrentAllocationAndRooms env) w)))
            = true) as Ht'.
    { destruct (fetch_error_message env w) as [->| ->]; [assumption|reflexivity]. }
    destruct (render_error _ Hl Ht') as [m [_ Hr]]. now exists m.
  - intros Hl.
    assert (truthy (error_message (view (world_after (handleBookRoom env roomId) w)))
            = true) as Ht'.
    { destruct (book_error_message env roomId w) as [-> |[-> | ->]];
        [assumption|reflexivity|reflexivity]. }
    destruct (render_error _ (book_loading env roomId w Hl) Ht') as [m [_ Hr]].
    now exists m.
Qed.

Lemma error_display_is_terminal_witness :
  (exists m,
      render
        (view (world_after (fetchCurrentAllocationAndRooms (calm_session studentA 1000 "a1"))
                 (world_after (fetchCurrentAllocationAndRooms signed_out)
                    (mount two_rooms))))
      = ErrorBox m)
  /\
  (exists m,
      render
        (view (world_after (handleBookRoom (calm_session studentA 1000 "a1") "R1")
                 (world_after (fetchCurrentAllocationAndRooms signed_out)
                    (mount two_rooms))))
      = ErrorBox m).
Proof.
  destruct (error_display_is_terminal (calm_session studentA 1000 "a1") "R1"
              (world_after (fetchCurrentAllocationAndRooms signed_out) (mount two_rooms))
              eq_refl) as [Hfetch Hbook].
  split; [exact Hfetch | exact (Hbook eq_refl)].
Defined.

(** What a resolution can do to the available-room list: leave it, or
    empty it. *)
Lemma fetch_available_rooms (env : Env) (w : World) :
  availableRooms (view (world_after (fetchCurrentAllocationAndRooms env) w))
    = availableRooms (view w)
  \/ availableRooms (view (world_after (fetchCurrentAllocationAndRooms env) w)) = [].
Proof.
  unfold world_after.
  destruct (fetch_paths env w)
    as [Hu|[[u [m [Hu Hf]]]|[[u [d [Hu Hr]]]|[[u [m [Hu [Hr Hf]]]]|[u [rs [Hu [Hr Hrs]]]]]]]].
  - rewrite (fetch_unauthenticated env w Hu). now left.
  - rewrite (fetch_allocation_query_fails env w u m Hu Hf). now left.
  - rewrite (fetch_allocation_found env w u d Hu Hr). now left.
  - rewrite (fetch_rooms_query_fails env w u m Hu Hr Hf). now left.
  - rewrite (fetch_rooms_listed env w u rs Hu Hr Hrs). right. cbn.
    rewrite available_rooms_rejected in Hrs.
    destruct (fault_at env (S (S (tick w)))); cbn in Hrs;
      try discriminate Hrs. now inversion Hrs.
Qed.

Lemma render_no_rooms (v : View) :
  availableRooms v = [] -> bookable (render v) = [].
Proof.
  intros Hnil. unfold render. rewrite Hnil.
  destruct (loading v); [reflexivity|].
  destruct (if truthy (error_message v) then error_message v else None);
    [reflexivity|].
  destruct (currentAllocation v); reflexivity.
Qed.

(** X10.  No reply to the rooms request as the component sends it fills the
    available-room list: a resolution leaves the list as it was or empties
    it.  From a view whose list is empty, as at mount, the screen after a
    resolution therefore offers no room to book, whatever the store holds
    and whatever the collaborators answer. *)
Theorem no_room_offered_after_resolution (env : Env) (w : World) :
  availableRooms (view w) = [] ->
  let w' := world_after (fetchCurrentAllocationAndRooms env) w in
  availableRooms (view w') = [] /\
  bookable (render (view w')) = [].
Proof.
  intros Hnil w'.
  assert (availableRooms (view w') = []) as Hnil'.
  { subst w'. destruct (fetch_available_rooms env w) as [H|H]; congruence. }
  split; [assumption|]. now apply render_no_rooms.
Qed.

Lemma no_room_offered_after_resolution_witness :
  rooms_with_no_open_allocation mixed_store = [] /\
  rooms_with_no_open_allocation two_rooms = [R1; R2] /\
  availableRooms
    (view (world_after
             (fetchCurrentAllocationAndRooms (calm_session studentA 1000 "a1"))
             (mount two_rooms))) = [] /\
  bookable
    (render
       (view (world_after
                (fetchCurrentAllocationAndRooms (calm_session studentA 1000 "a1"))
                (mount two_rooms)))) = [].
Proof.
  split; [reflexivity|]. split; [reflexivity|].
  exact (no_room_offered_after_resolution (calm_session studentA 1000 "a1")
           (mount two_rooms) eq_refl).
Defined.

(** X11.  When a booking is accepted and its refresh is answered, for a
    room of the store and a student whose earlier records all start before
    the clock's reading, from a view with no error, the screen that follows
    is the allocated view of the booked room; the available-room list in
    the state is the one from before the booking. *)
Theorem booking_shows_allocated_view
    (env : Env) (w : World) (u : User.t) (roomId : string) :
  getUser_at env (tick w) = Some u ->
  failed (fault_at env (S (tick w))) = false ->
  room_exists (db w) roomId = true ->
  all_started_before (db w) (User.id u) (now_at env (S (tick w))) = true ->
  getUser_at env (S (S (tick w))) = Some u ->
  fault_at env (S (S (S (tick w)))) = NoFault ->
  truthy (error_message (view w)) = false ->
  let w' := world_after (handleBookRoom env roomId) w in
  exists r,
    In r (rooms (db w)) /\ Room.id r = roomId /\
    render (view w') = AllocatedView (Room.room_number r) /\
    bookable (render (view w')) = [] /\
    availableRooms (view w') = availableRooms (view w).
Proof.
  intros Hu Hf Hroom Hbefore Hu2 Hf2 Ht w'.
  destruct (latest_allocation_after_insert (db w) (uuid_at env (S (tick w)))
              (User.id u) roomId (now_at env (S (tick w))) Hroom Hbefore)
    as [r [Hr [Hid Hq]]].
  exists r. split; [assumption|]. split; [assumption|].
  set (wi := after_insert env w u roomId).
  assert (respond (fault_at env (S (tick wi)))
            (Query.latest_allocation (db wi) (User.id u))
          = mkResponse
              (Some (RoomAllocationResponse.mk (uuid_at env (S (tick w)))
                       (now_at env (S (tick w))) None r)) None) as Hresp.
  { cbn. rewrite Hf2. exact Hq. }
  assert (view w' =
          mkView false
            (Some (RoomAllocation.mk (uuid_at env (S (tick w))) r
                     (now_at env (S (tick w))) None))
            (availableRooms (view w)) (error_message (view w)) false) as Hview.
  { subst w'. unfold world_after.
    rewrite (book_insert_succeeds env roomId w u Hu Hf). unfold world_after.
    fold wi. rewrite (fetch_allocation_found env wi u _ Hu2 Hresp). reflexivity. }
  rewrite Hview.
  erewrite render_allocated; [|reflexivity|exact Ht|reflexivity].
  now repeat split.
Qed.

Lemma booking_shows_allocated_view_witness :
  exists r,
    In r [R1; R2] /\ Room.id r = "R2" /\
    render
      (view (world_after (handleBookRoom (calm_session studentA 1000 "a1") "R2")
               (mount two_rooms)))
    = AllocatedView (Room.room_number r) /\
    bookable
      (render
         (view (world_after (handleBookRoom (calm_session studentA 1000 "a1") "R2")
                  (mount two_rooms)))) = [] /\
    availableRooms
      (view (world_after (handleBookRoom (calm_session studentA 1000 "a1") "R2")
               (mount two_rooms))) = [].
Proof.
  exact (booking_shows_allocated_view (calm_session studentA 1000 "a1")
           (mount two_rooms) studentA "R2"
           eq_refl eq_refl eq_refl eq_refl eq_refl eq_refl eq_refl).
Defined.

(** X12.  When the insert of a booking is accepted and the refresh that
    follows fails (nobody signed in any more, or its first query comes back
    with an error), the new record stays in the store, and what is shown is
    the fetch failure message, not the booking failure message. *)
Theorem refresh_failure_keeps_booking
    (env : Env) (w : World) (u : User.t) (roomId : string) :
  getUser_at env (tick w) = Some u ->
  failed (fault_at env (S (tick w))) = false ->
  (getUser_at env (S (S (tick w))) = None
   \/ exists u2 m,
        getUser_at env (S (S (tick w))) = Some u2 /\
        fault_at env (S (S (S (tick w)))) = Fails m) ->
  let w' := world_after (handleBookRoom env roomId) w in
  room_allocations (db w') =
    room_allocations (db w) ++
      [Row.mk (uuid_at env (S (tick w))) (User.id u) roomId (now_at env (S (tick w))) None]
  /\ error_message (view w') = Some "Failed to fetch room details"
  /\ render (view w') = ErrorBox "Failed to fetch room details"
  /\ currentAllocation (view w') = currentAllocation (view w).
Proof.
  intros Hu Hf Hfail w'.
  split; [subst w'; now rewrite book_db, Hu, Hf|].
  set (wi := after_insert env w u roomId).
  assert (view w' =
          mkView false (currentAllocation (view w)) (availableRooms (view w))
            (Some "Failed to fetch room details") false) as Hview.
  { subst w'. unfold world_after.
    rewrite (book_insert_succeeds env roomId w u Hu Hf). unfold world_after. fold wi.
    destruct Hfail as [Hnone|[u2 [m [Hu2 Hm]]]].
    - now rewrite (fetch_unauthenticated env wi Hnone).
    - now rewrite (fetch_allocation_query_fails env wi u2 m Hu2 Hm). }
  rewrite Hview. now repeat split.
Qed.

Lemma refresh_failure_keeps_booking_witness :
  room_allocations
    (db (world_after (handleBookRoom (failing_at studentA 3 "timeout") "R1")
           (mount two_rooms)))
  = [Row.mk "a1" "studentA" "R1" 1000 None]
  /\ error_message
       (view (world_after (handleBookRoom (failing_at studentA 3 "timeout") "R1")
                (mount two_rooms)))
     = Some "Failed to fetch room details"
  /\ render
       (view (world_after (handleBookRoom (failing_at studentA 3 "timeout") "R1")
                (mount two_rooms)))
     = ErrorBox "Failed to fetch room details"
  /\ currentAllocation
       (view (world_after (handleBookRoom (failing_at studentA 3 "timeout") "R1")
                (mount two_rooms)))
     = None.
Proof.
  apply (refresh_failure_keeps_booking (failing_at studentA 3 "timeout")
           (mount two_rooms) studentA "R1" eq_refl eq_refl).
  right. exists studentA, "timeout". split; reflexivity.
Defined.

(** X13.  When a booking fails before or at its insert (nobody signed in,
    or the insert comes back with an error) and the view is not loading, the
    screen that follows is the error box with the booking failure message
    and offers no room to book; the store, the current allocation and the
    available-room list are as before. *)
Theorem failed_booking_screen (env : Env) (roomId : string) (w : World) :
  loading (view w) = false ->
  (getUser_at env (tick w) = None
   \/ exists u m,
        getUser_at env (tick w) = Some u /\ fault_at env (S (tick w)) = Fails m) ->
  let w' := world_after (handleBookRoom env roomId) w in
  render (view w') = ErrorBox "Failed to book room. Please try again." /\
  bookable (render (view w')) = [] /\
  db w' = db w /\
  currentAllocation (view w') = currentAllocation (view w) /\
  availableRooms (view w') = availableRooms (view w).
Proof.
  intros Hl Hfail w'.
  assert (view w' = booking_failed (view w) "Failed to book room. Please try again."
          /\ db w' = db w) as [Hview Hdb].
  { subst w'. unfold world_after.
    destruct Hfail as [Hnone|[u [m [Hu Hm]]]].
    - now rewrite (book_unauthenticated env roomId w Hnone).
    - now rewrite (book_insert_fails env roomId w u m Hu Hm). }
  rewrite Hview, Hdb. unfold render, booking_failed. cbn. rewrite Hl. now repeat split.
Qed.

Lemma failed_booking_screen_witness :
  render
    (view (world_after (handleBookRoom (failing_at studentA 4 "duplicate key") "R1")
             (world_after
                (fetchCurrentAllocationAndRooms (failing_at studentA 4 "duplicate key"))
                (mount two_rooms))))
  = ErrorBox "Failed to book room. Please try again." /\
  bookable
    (render
       (view (world_after (handleBookRoom (failing_at studentA 4 "duplicate key") "R1")
                (world_after
                   (fetchCurrentAllocationAndRooms (failing_at studentA 4 "duplicate key"))
                   (mount two_rooms))))) = [] /\
  db (world_after (handleBookRoom (failing_at studentA 4 "duplicate key") "R1")
        (world_after
           (fetchCurrentAllocationAndRooms (failing_at studentA 4 "duplicate key"))
           (mount two_rooms))) = two_rooms /\
  currentAllocation
    (view (world_after (handleBookRoom (failing_at studentA 4 "duplicate key") "R1")
             (world_after
                (fetchCurrentAllocationAndRooms (failing_at studentA 4 "duplicate key"))
                (mount two_rooms)))) = None /\
  availableRooms
    (view (world_after (handleBookRoom (failing_at studentA 4 "duplicate key") "R1")
             (world_after
                (fetchCurrentAllocationAndRooms (failing_at studentA 4 "duplicate key"))
                (mount two_rooms)))) = [].
Proof.
  apply (failed_booking_screen (failing_at studentA 4 "duplicate key") "R1"
           (world_after
              (fetchCurrentAllocationAndRooms (failing_at studentA 4 "duplicate key"))
              (mount two_rooms)) eq_refl).
  right. exists studentA, "duplicate key". split; reflexivity.
Defined.

(** X14.  A signed-in student with any allocation record, also one whose
    records have all ended, is shown the allocated view of the most recent
    record's room after a resolution whose first query is answered, from a
    view with no error; no room is offered to book. *)
Theorem ended_allocation_still_displayed (env : Env) (w : World) (u : User.t) :
  getUser_at env (tick w) = Some u ->
  fault_at env (S (tick w)) = NoFault ->
  referential_integrity (db w) = true ->
  has_allocation (db w) (User.id u) = true ->
  truthy (error_message (view w)) = false ->
  let screen := render (view (world_after (fetchCurrentAllocationAndRooms env) w)) in
  exists a r,
    In a (room_allocations (db w)) /\
    Row.student_id a = User.id u /\
    (forall b, In b (room_allocations (db w)) -> Row.student_id b = User.id u ->
               Row.start_date b <= Row.start_date a) /\
    In r (rooms (db w)) /\
    Room.id r = Row.room_id a /\
    screen = AllocatedView (Room.room_number r) /\
    bookable screen = [].
Proof.
  intros Hu Hf Hfk Hhas Ht screen.
  destruct (latest_allocation_some (db w) (User.id u) Hfk Hhas)
    as [a [r [Ha [Hs [Hmax [Hr [Hid Hq]]]]]]].
  assert (respond (fault_at env (S (tick w)))
            (Query.latest_allocation (db w) (User.id u))
          = mkResponse (Some (Query.project (a, r))) None) as Hresp.
  { rewrite Hf. exact Hq. }
  assert (screen = AllocatedView (Room.room_number r)) as Hscreen.
  { subst screen. unfold world_after.
    rewrite (fetch_allocation_found env w u _ Hu Hresp). cbn [snd view].
    erewrite render_allocated; [|reflexivity|exact Ht|reflexivity]. reflexivity. }
  exists a, r. rewrite Hscreen. now repeat split.
Qed.

Lemma ended_allocation_still_displayed_witness :
  exists a r,
    In a (room_allocations later_allocation) /\
    Row.student_id a = "studentA" /\
    (forall b, In b (room_allocations later_allocation) ->
               Row.student_id b = "studentA" ->
               Row.start_date b <= Row.start_date a) /\
    In r (rooms later_allocation) /\
    Room.id r = Row.room_id a /\
    render
      (view (world_after (fetchCurrentAllocationAndRooms (calm_session studentA 5000 "a1"))
               (mount later_allocation)))
    = AllocatedView (Room.room_number r) /\
    bookable
      (render
         (view (world_after
                  (fetchCurrentAllocationAndRooms (calm_session studentA 5000 "a1"))
                  (mount later_allocation)))) = [].
Proof.
  exact (ended_allocation_still_displayed (calm_session studentA 5000 "a1")
           (mount later_allocation) studentA eq_refl eq_refl eq_refl eq_refl eq_refl).
Defined.
